(** * ghn: a terminal notification browser (main.go)

    A shallow embedding of the interactive core of [main.go]: the Bubble Tea
    model, its [Update] reducer, the key handler, the list window computed by
    [View], the per-row formatter, and the target resolution of
    [openInBrowser].

    Conventions.
    - Go [int] is the 64-bit two's-complement integer of the usual targets
      (amd64, arm64); it is a [Z] and every arithmetic operation of the source
      is wrapped explicitly ([GoInt.add], [GoInt.sub], [GoInt.quot]).
    - Go strings are byte sequences; they are [string] (one [ascii] per byte)
      and [len] counts bytes.
    - A run-time panic (index or slice bound out of range) is [None]; a
      function that can panic returns an [option].
    - An [error] value is represented by the text of its [Error()] method. *)

From Stdlib Require Import ZArith List String Ascii Bool Lia DecimalString.
Import ListNotations.

Local Open Scope list_scope.
Local Open Scope string_scope.
Local Open Scope Z_scope.

(** ** Panics as an option monad *)

Definition bind {A B : Type} (x : option A) (k : A -> option B) : option B :=
  match x with
  | Some a => k a
  | None => None
  end.

Notation "x <- e ;; k" := (bind e (fun x => k))
  (at level 61, e at next level, right associativity).

(** ** Go's [int] *)

Module GoInt.

Definition min_int : Z := - 2 ^ 63.
Definition max_int : Z := 2 ^ 63 - 1.

(** Reduction of a mathematical integer to the signed 64-bit range. *)
Definition wrap (x : Z) : Z := (x + 2 ^ 63) mod 2 ^ 64 - 2 ^ 63.

Definition add (x y : Z) : Z := wrap (x + y).
Definition sub (x y : Z) : Z := wrap (x - y).
(** Go's [/] truncates toward zero. *)
Definition quot (x y : Z) : Z := wrap (Z.quot x y).

Definition in_range (x : Z) : Prop := min_int <= x <= max_int.

End GoInt.

(** ** Slices and strings with checked bounds *)

Definition len {A : Type} (l : list A) : Z := Z.of_nat (List.length l).

(** [l[i]] *)
Definition index {A : Type} (l : list A) (i : Z) : option A :=
  if (0 <=? i) && (i <? len l) then nth_error l (Z.to_nat i) else None.

(** [l[:j]].  Go checks [j] against the capacity of a slice; the model checks
    it against the length, which is never larger. *)
Definition slice_to {A : Type} (l : list A) (j : Z) : option (list A) :=
  if (0 <=? j) && (j <=? len l) then Some (firstn (Z.to_nat j) l) else None.

(** [l[i:]] *)
Definition slice_from {A : Type} (l : list A) (i : Z) : option (list A) :=
  if (0 <=? i) && (i <=? len l) then Some (skipn (Z.to_nat i) l) else None.

Definition strlen (s : string) : Z := Z.of_nat (String.length s).

(** [s[:j]] on a string: the first [j] bytes. *)
Definition str_slice_to (s : string) (j : Z) : option string :=
  if (0 <=? j) && (j <=? strlen s)
  then Some (substring 0 (Z.to_nat j) s)
  else None.

(** ** The part of package [strings] that the program uses *)

Module Strings.

(** [strings.Split(s, sep)] for a one-byte separator: the substrings between
    the separators, in order; a string without separator is returned whole, so
    the result is never empty. *)
Fixpoint Split (s : string) (sep : ascii) : list string :=
  match s with
  | EmptyString => [EmptyString]
  | String c r =>
      if Ascii.eqb c sep then EmptyString :: Split r sep
      else match Split r sep with
           | h :: t => String c h :: t
           | [] => [String c EmptyString]
           end
  end.

End Strings.

(** ** Data model (main.go, lines 17-34 and 68-78)

    [UpdatedAt] is kept as a number of seconds; no function modelled here
    reads it. *)

Record Repository := mkRepository { FullName : string }.

Record Subject := mkSubject {
  Type_ : string;
  Title : string;
  URL : string
}.

Record Notification := mkNotification {
  ID : string;
  Unread : bool;
  Reason : string;
  Repository_ : Repository;
  Subject_ : Subject;
  UpdatedAt : Z
}.

Definition RepoName (n : Notification) : string := FullName (Repository_ n).

Definition TypeDisplay (n : Notification) : string :=
  let t := Type_ (Subject_ n) in
  if String.eqb t "PullRequest" then "pr"
  else if String.eqb t "Issue" then "issue"
  else if String.eqb t "Release" then "release"
  else if String.eqb t "Discussion" then "discuss"
  else "other".

(** ** Remote gateway: resolving the browser target (lines 155-183) *)

Definition slash : ascii := "/"%char.

Definition extractIssueNumber (url : string) : option string :=
  let parts := Strings.Split url slash in
  if len parts >? 0 then index parts (GoInt.sub (len parts) 1)
  else Some "".

(** The argument vector handed to [exec.Command] by [openInBrowser]. *)
Definition openInBrowser_command (notification : Notification)
  : option (list string) :=
  let repo := RepoName notification in
  issueNum <- extractIssueNumber (URL (Subject_ notification)) ;;
  if negb (String.eqb issueNum "") then
    let t := Type_ (Subject_ notification) in
    if String.eqb t "Issue" then
      Some ["gh"; "issue"; "view"; issueNum; "-R"; repo; "--web"]
    else if String.eqb t "PullRequest" then
      Some ["gh"; "pr"; "view"; issueNum; "-R"; repo; "--web"]
    else Some ["gh"; "repo"; "view"; repo; "--web"]
  else Some ["gh"; "repo"; "view"; repo; "--web"].

(** [openInBrowser] runs the command; [run] is the operating system's answer
    ([None] for a nil error). *)
Definition openInBrowser (run : list string -> option string)
  (notification : Notification) : option (option string) :=
  cmd <- openInBrowser_command notification ;;
  Some (run cmd).

(** ** The part of package [fmt] that the program uses *)

Module Fmt.

(** The verb [%d] on an [int]. *)
Definition itoa (z : Z) : string := NilZero.string_of_int (Z.to_int z).

Fixpoint spaces (n : nat) : string :=
  match n with
  | O => ""
  | S k => String " "%char (spaces k)
  end.

(** [%-Ns]: padding on the right up to [w] columns; [fmt] measures the width
    of the operand in runes, which [runes] computes. *)
Definition padRight (runes : string -> nat) (w : nat) (s : string) : string :=
  s ++ spaces (w - runes s).

(** [%Nd]: padding on the left; the digits and the sign are one byte each. *)
Definition padLeft (w : nat) (s : string) : string :=
  spaces (w - String.length s) ++ s.

End Fmt.

Definition nl : string := String (ascii_of_nat 10) "".

(** ** Application state (lines 68-78) *)

Record Model := mkModel {
  notifications : list Notification;
  selectedIndex : Z;
  loading : bool;
  err : option string;
  showingSummary : bool;
  summaryContent : string;
  statusMessage : string;
  terminalWidth : Z;
  terminalHeight : Z
}.

Definition with_notifications (v : list Notification) (m : Model) : Model :=
  mkModel v (selectedIndex m) (loading m) (err m) (showingSummary m)
    (summaryContent m) (statusMessage m) (terminalWidth m) (terminalHeight m).

Definition with_selectedIndex (v : Z) (m : Model) : Model :=
  mkModel (notifications m) v (loading m) (err m) (showingSummary m)
    (summaryContent m) (statusMessage m) (terminalWidth m) (terminalHeight m).

Definition with_loading (v : bool) (m : Model) : Model :=
  mkModel (notifications m) (selectedIndex m) v (err m) (showingSummary m)
    (summaryContent m) (statusMessage m) (terminalWidth m) (terminalHeight m).

Definition with_err (v : option string) (m : Model) : Model :=
  mkModel (notifications m) (selectedIndex m) (loading m) v (showingSummary m)
    (summaryContent m) (statusMessage m) (terminalWidth m) (terminalHeight m).

Definition with_statusMessage (v : string) (m : Model) : Model :=
  mkModel (notifications m) (selectedIndex m) (loading m) (err m)
    (showingSummary m) (summaryContent m) v (terminalWidth m)
    (terminalHeight m).

Definition with_terminalSize (w h : Z) (m : Model) : Model :=
  mkModel (notifications m) (selectedIndex m) (loading m) (err m)
    (showingSummary m) (summaryContent m) (statusMessage m) w h.

(** ** Messages and commands (lines 80-84 and 186-214) *)

(** [tea.Msg] is an open interface; [otherMsg] stands for every message that
    no case of [Update] selects.  [KeyMsg] carries the result of
    [msg.String()], [errorMsg] the text of the error. *)
Inductive Msg :=
| WindowSizeMsg (Width Height : Z)
| KeyMsg (key : string)
| notificationsLoadedMsg (ns : list Notification)
| notificationMarkedMsg (id : string)
| errorMsg (e : string)
| statusMsg (s : string)
| otherMsg.

Inductive Cmd :=
| nilCmd
| Quit
| fetchNotificationsCmd
| markAsReadCmd (id : string)
| openInBrowserCmd (notification : Notification).

(** The message each command delivers, from the outcome of its gateway call
    ([inr e] or [Some e] is a non-nil error with text [e]). *)
Definition fetchNotificationsCmd_msg (r : list Notification + string) : Msg :=
  match r with
  | inr e => errorMsg e
  | inl ns => notificationsLoadedMsg ns
  end.

Definition markAsReadCmd_msg (id : string) (r : option string) : Msg :=
  match r with
  | Some e => errorMsg ("failed to mark as read: " ++ e)
  | None => notificationMarkedMsg id
  end.

Definition openInBrowserCmd_msg (r : option string) : Msg :=
  match r with
  | Some e => errorMsg ("failed to open in browser: " ++ e)
  | None => statusMsg "Opened in browser"
  end.

Definition initialModel : Model :=
  mkModel [] 0 true None false "" "Loading notifications..." 80 24.

(** ** The reducer (lines 232-330) *)

Definition handleKeyPress (m : Model) (key : string) : option (Model * Cmd) :=
  if (key =? "q")%string || (key =? "ctrl+c")%string then Some (m, Quit)
  else if (key =? "up")%string || (key =? "k")%string then
    let m := if selectedIndex m >? 0
             then with_selectedIndex (GoInt.sub (selectedIndex m) 1) m
             else m in
    Some (m, nilCmd)
  else if (key =? "down")%string || (key =? "j")%string then
    let m := if selectedIndex m <? GoInt.sub (len (notifications m)) 1
             then with_selectedIndex (GoInt.add (selectedIndex m) 1) m
             else m in
    Some (m, nilCmd)
  else if (key =? "enter")%string then
    if len (notifications m) >? 0 then
      notification <- index (notifications m) (selectedIndex m) ;;
      Some (m, openInBrowserCmd notification)
    else Some (m, nilCmd)
  else if (key =? "r")%string then
    if len (notifications m) >? 0 then
      notification <- index (notifications m) (selectedIndex m) ;;
      Some (m, markAsReadCmd (ID notification))
    else Some (m, nilCmd)
  else if (key =? "f")%string || (key =? "F5")%string then
    let m := with_loading true m in
    let m := with_statusMessage "Refreshing notifications..." m in
    Some (m, fetchNotificationsCmd)
  else if (key =? "tab")%string then
    Some (with_statusMessage "Summary view coming soon..." m, nilCmd)
  else Some (m, nilCmd).

(** Body of the [if notification.ID == id] branch (lines 258-266), at loop
    index [i]. *)
Definition removeAt (m : Model) (i : Z) : option Model :=
  pre <- slice_to (notifications m) i ;;
  post <- slice_from (notifications m) (GoInt.add i 1) ;;
  let m := with_notifications (pre ++ post)%list m in
  let m := if (selectedIndex m >=? len (notifications m))
                && (len (notifications m) >? 0)
           then with_selectedIndex (GoInt.sub (len (notifications m)) 1) m
           else m in
  let m := if len (notifications m) =? 0 then with_selectedIndex 0 m else m in
  Some m.

(** The [for i, notification := range m.notifications] loop (lines 256-268):
    [rng] is what is left of the slice the loop ranges over and [i] the
    position of its head; the loop stops at the first match. *)
Fixpoint markedLoop (id : string) (rng : list Notification) (i : Z)
  (m : Model) : option Model :=
  match rng with
  | [] => Some m
  | notification :: rest =>
      if (ID notification =? id)%string then removeAt m i
      else markedLoop id rest (i + 1) m
  end.

Definition Update (m : Model) (msg : Msg) : option (Model * Cmd) :=
  match msg with
  | WindowSizeMsg w h => Some (with_terminalSize w h m, nilCmd)
  | KeyMsg key => handleKeyPress m key
  | notificationsLoadedMsg ns =>
      let m := with_notifications ns m in
      let m := with_loading false m in
      let m := with_err None m in
      let m := with_statusMessage
                 ("Loaded " ++ Fmt.itoa (len (notifications m))
                  ++ " notifications") m in
      let m := if len (notifications m) =? 0
               then with_statusMessage "No notifications found" m
               else m in
      Some (m, nilCmd)
  | notificationMarkedMsg id =>
      m <- markedLoop id (notifications m) 0 m ;;
      Some (with_statusMessage "Notification marked as read" m, nilCmd)
  | errorMsg e =>
      let m := with_err (Some e) m in
      let m := with_loading false m in
      let m := with_statusMessage ("Error: " ++ e) m in
      Some (m, nilCmd)
  | statusMsg s => Some (with_statusMessage s m, nilCmd)
  | otherMsg => Some (m, nilCmd)
  end.

(** Feeding a sequence of messages to the reducer, commands dropped. *)
Fixpoint run (m : Model) (msgs : list Msg) : option Model :=
  match msgs with
  | [] => Some m
  | msg :: rest =>
      match Update m msg with
      | Some (m', _) => run m' rest
      | None => None
      end
  end.

(** ** The renderer (lines 332-438) *)

Inductive Style :=
| titleStyle | headerStyle | selectedStyle | unreadStyle | readStyle
| dimStyle | statusStyle.

Definition StatusIcon (n : Notification) : string :=
  if Unread n then "●" else "○".

Definition maxTitleLen (m : Model) : Z :=
  let maxTitleLen := GoInt.sub (terminalWidth m) 45 in
  if maxTitleLen <? 20 then 20 else maxTitleLen.

(** Lines 413-416. *)
Definition truncateTitle (m : Model) (title : string) : option string :=
  if strlen title >? maxTitleLen m then
    t <- str_slice_to title (GoInt.sub (maxTitleLen m) 3) ;;
    Some (t ++ "...")
  else Some title.

(** Lines 419-422. *)
Definition truncateRepo (repo : string) : option string :=
  if strlen repo >? 20 then
    r <- str_slice_to repo 17 ;;
    Some (r ++ "...")
  else Some repo.

Definition visibleHeight (m : Model) : Z := GoInt.sub (terminalHeight m) 8.

(** Lines 358-376: the pair [(startIdx, endIdx)] the row loop runs over. *)
Definition listWindow (m : Model) : Z * Z :=
  let visibleHeight := visibleHeight m in
  let startIdx := 0 in
  let endIdx := len (notifications m) in
  if len (notifications m) >? visibleHeight then
    let startIdx :=
      GoInt.sub (selectedIndex m) (GoInt.quot visibleHeight 2) in
    let startIdx := if startIdx <? 0 then 0 else startIdx in
    let endIdx := GoInt.add startIdx visibleHeight in
    if endIdx >? len (notifications m) then
      let endIdx := len (notifications m) in
      let startIdx := GoInt.sub endIdx visibleHeight in
      let startIdx := if startIdx <? 0 then 0 else startIdx in
      (startIdx, endIdx)
    else (startIdx, endIdx)
  else (startIdx, endIdx).

(** The values [i] takes in [for i := startIdx; i < endIdx; i++]. *)
Definition loopIndices (startIdx endIdx : Z) : list Z :=
  map (fun k => startIdx + Z.of_nat k)
      (seq 0 (Z.to_nat (endIdx - startIdx))).

Definition renderedIndices (m : Model) : list Z :=
  loopIndices (fst (listWindow m)) (snd (listWindow m)).

Fixpoint mapM {A B : Type} (f : A -> option B) (l : list A)
  : option (list B) :=
  match l with
  | [] => Some []
  | a :: r => b <- f a ;; bs <- mapM f r ;; Some (b :: bs)
  end.

Section Renderer.

(** [lipgloss.Style.Render] and the rune count [fmt] pads with belong to
    libraries; the renderer is parametric in them. *)
Variable Render : Style -> string -> string.
Variable RuneCountInString : string -> nat.

Definition formatNotificationLine (m : Model) (notification : Notification)
  (index : Z) : option string :=
  title <- truncateTitle m (Title (Subject_ notification)) ;;
  repo <- truncateRepo (RepoName notification) ;;
  let statusIcon :=
    if Unread notification
    then Render unreadStyle (StatusIcon notification)
    else Render readStyle (StatusIcon notification) in
  Some (Fmt.padLeft 2 (Fmt.itoa (GoInt.add index 1)) ++ " "
        ++ statusIcon ++ " "
        ++ Fmt.padRight RuneCountInString 20 repo ++ " "
        ++ Fmt.padRight RuneCountInString 10 (TypeDisplay notification) ++ " "
        ++ title)%string.

(** One iteration of the row loop (lines 379-387). *)
Definition viewRow (m : Model) (i : Z) : option string :=
  notification <- index (notifications m) i ;;
  line <- formatNotificationLine m notification i ;;
  let line := if i =? selectedIndex m then Render selectedStyle line
              else line in
  Some (line ++ nl)%string.

Definition viewRows (m : Model) : option (list string) :=
  mapM (viewRow m) (renderedIndices m).

Definition header : string :=
  ("   " ++ Fmt.padRight RuneCountInString 8 "Status" ++ " "
   ++ Fmt.padRight RuneCountInString 20 "Repository" ++ " "
   ++ Fmt.padRight RuneCountInString 10 "Type" ++ " " ++ "Title")%string.

Definition help : string :=
  "↑↓:Navigate  Enter:Open  r:Mark Read  f:Refresh  Tab:Summary  q:Quit".

Definition View (m : Model) : option string :=
  if loading m then
    Some (nl ++ "  " ++ Render titleStyle "GitHub Notifications" ++ nl ++ nl
          ++ "  " ++ "Loading notifications..." ++ nl)%string
  else match err m with
  | Some e =>
    Some (nl ++ "  " ++ Render titleStyle "GitHub Notifications" ++ nl ++ nl
          ++ "  Error: " ++ e ++ nl ++ nl
          ++ "  Press 'q' to quit, 'f' to retry" ++ nl)%string
  | None =>
    body <- (if len (notifications m) >? 0 then
               rows <- viewRows m ;;
               Some (Render headerStyle header ++ nl
                     ++ String.concat "" rows)%string
             else Some ("No notifications found" ++ nl)%string) ;;
    Some (Render titleStyle "GitHub Notifications" ++ nl ++ nl
          ++ body
          ++ nl ++ Render statusStyle (statusMessage m) ++ nl
          ++ nl ++ Render dimStyle help)%string
  end.

End Renderer.

(** ** Vocabulary of the specification *)

(** Does the byte [c] occur in [s]? *)
Fixpoint contains_byte (c : ascii) (s : string) : bool :=
  match s with
  | EmptyString => false
  | String a r => Ascii.eqb a c || contains_byte c r
  end.

(** [seg] is the trailing path segment of [url]: what follows the last [/],
    or [url] itself when it has none. *)
Definition final_segment (url seg : string) : Prop :=
  contains_byte slash seg = false /\
  (url = seg \/ exists p, url = p ++ String slash seg).

(** The ASCII digits. *)
Definition is_digit (c : ascii) : bool :=
  (48 <=? nat_of_ascii c)%nat && (nat_of_ascii c <=? 57)%nat.

Fixpoint all_digits (s : string) : bool :=
  match s with
  | EmptyString => true
  | String c r => is_digit c && all_digits r
  end.

(** A numeric-like segment: one decimal digit or more, nothing else. *)
Definition numeric_like (s : string) : bool :=
  negb (s =? "")%string && all_digits s.

(** The three argument vectors [openInBrowser] can build. *)
Definition issueView (num repo : string) : list string :=
  ["gh"; "issue"; "view"; num; "-R"; repo; "--web"].

Definition prView (num repo : string) : list string :=
  ["gh"; "pr"; "view"; num; "-R"; repo; "--web"].

Definition repoView (repo : string) : list string :=
  ["gh"; "repo"; "view"; repo; "--web"].

(** The status text a completed fetch leaves, by the number of records. *)
Definition loadedStatus (ns : list Notification) : string :=
  match ns with
  | [] => "No notifications found"
  | _ :: _ => "Loaded " ++ Fmt.itoa (len ns) ++ " notifications"
  end.

(** What an [errorMsg] with text [e] makes of [m]. *)
Definition afterError (e : string) (m : Model) : Model :=
  mkModel (notifications m) (selectedIndex m) false (Some e)
    (showingSummary m) (summaryContent m) ("Error: " ++ e)
    (terminalWidth m) (terminalHeight m).

(** The list without the first record whose id is [id]. *)
Fixpoint remove_first (id : string) (l : list Notification)
  : list Notification :=
  match l with
  | [] => []
  | n :: r => if (ID n =? id)%string then r else n :: remove_first id r
  end.

(** Is there a record with id [id]? *)
Definition has_id (id : string) (l : list Notification) : bool :=
  existsb (fun n => (ID n =? id)%string) l.

(** The number of records with id [id]. *)
Definition count_id (id : string) (l : list Notification) : nat :=
  List.length (filter (fun n => (ID n =? id)%string) l).

(** The selection after a removal that left [n] records. *)
Definition reclamp (n sel : Z) : Z :=
  if n =? 0 then 0 else if sel >=? n then n - 1 else sel.

(** The cursor invariant of the application state. *)
Definition cursor_ok (m : Model) : Prop :=
  (notifications m = [] /\ selectedIndex m = 0) \/
  0 <= selectedIndex m <= len (notifications m) - 1.

(** The keys bound to moving the selection (lines 292 and 298). *)
Definition nav_key (key : string) : bool :=
  (key =? "up")%string || (key =? "k")%string
  || (key =? "down")%string || (key =? "j")%string.

(** The effect of the up keys on the state (lines 293-295). *)
Definition moveUp (m : Model) : Model :=
  if selectedIndex m >? 0
  then with_selectedIndex (GoInt.sub (selectedIndex m) 1) m
  else m.

(** The effect of the down keys on the state (lines 299-301). *)
Definition moveDown (m : Model) : Model :=
  if selectedIndex m <? GoInt.sub (len (notifications m)) 1
  then with_selectedIndex (GoInt.add (selectedIndex m) 1) m
  else m.

(** ** Sample records and states *)

Definition issue42 : Notification :=
  mkNotification "7" true "mention" (mkRepository "octo/repo")
    (mkSubject "Issue" "Crash on start"
       "https://api.github.com/repos/octo/repo/issues/42") 0.

Definition pull42 : Notification :=
  mkNotification "8" true "review_requested" (mkRepository "octo/repo")
    (mkSubject "PullRequest" "Fix crash"
       "https://api.github.com/repos/octo/repo/pulls/42") 0.

Definition noSegment : Notification :=
  mkNotification "9" false "subscribed" (mkRepository "octo/repo")
    (mkSubject "Issue" "Trailing slash"
       "https://api.github.com/repos/octo/repo/issues/") 0.

(** One record loaded, then the refresh key: a fetch is in flight. *)
Definition refreshingModel : Model :=
  mkModel [issue42] 0 true None false "" "Refreshing notifications..." 80 24.

(** Five records, two of them with the id [b]. *)
Definition fiveItems : list Notification :=
  [mkNotification "a" true "mention" (mkRepository "octo/repo")
     (mkSubject "Issue" "One" "https://api.github.com/repos/octo/repo/issues/1") 0;
   mkNotification "b" true "mention" (mkRepository "octo/repo")
     (mkSubject "Issue" "Two" "https://api.github.com/repos/octo/repo/issues/2") 0;
   mkNotification "c" false "author" (mkRepository "octo/repo")
     (mkSubject "PullRequest" "Three" "https://api.github.com/repos/octo/repo/pulls/3") 0;
   mkNotification "b" true "mention" (mkRepository "octo/repo")
     (mkSubject "Issue" "Two again" "https://api.github.com/repos/octo/repo/issues/2") 0;
   mkNotification "e" true "subscribed" (mkRepository "octo/repo")
     (mkSubject "Release" "Five" "https://api.github.com/repos/octo/repo/releases/5") 0].

Definition fiveModel : Model :=
  mkModel fiveItems 4 false None false "" "Loaded 5 notifications" 80 24.

Definition emptyModel : Model :=
  mkModel [] 0 false None false "" "No notifications found" 80 24.

(** A terminal forty columns wide. *)
Definition narrowModel : Model :=
  mkModel [issue42] 0 false None false "" "Loaded 1 notifications" 40 24.

Definition longTitle : Notification :=
  mkNotification "12" true "mention"
    (mkRepository "octo-organisation/repository")
    (mkSubject "Issue" "A title that is longer than twenty bytes"
       "https://api.github.com/repos/octo-organisation/repository/issues/5") 0.

(** Terminals of eight and of four rows, and one of eleven rows that shows
    three of the five records. *)
Definition lowTerminal : Model :=
  mkModel fiveItems 4 false None false "" "Loaded 5 notifications" 80 8.

Definition tinyTerminal : Model :=
  mkModel fiveItems 4 false None false "" "Loaded 5 notifications" 80 4.

Definition scrolledModel : Model :=
  mkModel fiveItems 3 false None false "" "Loaded 5 notifications" 80 11.

(** ** Vocabulary of the further properties *)

(** The effect of the refresh keys on the state (lines 319-320). *)
Definition startRefresh (m : Model) : Model :=
  with_statusMessage "Refreshing notifications..." (with_loading true m).

(** The keys the handler binds, by the case that selects them. *)
Inductive KeyCase :=
| caseQuit | caseUp | caseDown | caseEnter | caseMarkRead | caseRefresh
| caseTab | caseUnbound.

Definition keyCase (key : string) : KeyCase :=
  if (key =? "q")%string || (key =? "ctrl+c")%string then caseQuit
  else if (key =? "up")%string || (key =? "k")%string then caseUp
  else if (key =? "down")%string || (key =? "j")%string then caseDown
  else if (key =? "enter")%string then caseEnter
  else if (key =? "r")%string then caseMarkRead
  else if (key =? "f")%string || (key =? "F5")%string then caseRefresh
  else if (key =? "tab")%string then caseTab
  else caseUnbound.

Definition is_key (msg : Msg) : bool :=
  match msg with KeyMsg _ => true | _ => false end.

Definition is_loaded (msg : Msg) : bool :=
  match msg with notificationsLoadedMsg _ => true | _ => false end.

Definition is_marked (msg : Msg) : bool :=
  match msg with notificationMarkedMsg _ => true | _ => false end.

Definition is_resize (msg : Msg) : bool :=
  match msg with WindowSizeMsg _ _ => true | _ => false end.

Definition is_error (msg : Msg) : bool :=
  match msg with errorMsg _ => true | _ => false end.

(** The frame shown while loading (lines 334-336). *)
Definition loadingFrame (Render : Style -> string -> string) : string :=
  nl ++ "  " ++ Render titleStyle "GitHub Notifications" ++ nl ++ nl
  ++ "  " ++ "Loading notifications..." ++ nl.

(** The frame shown for the error [e] (lines 340-342). *)
Definition errorFrame (Render : Style -> string -> string) (e : string)
  : string :=
  nl ++ "  " ++ Render titleStyle "GitHub Notifications" ++ nl ++ nl
  ++ "  Error: " ++ e ++ nl ++ nl
  ++ "  Press 'q' to quit, 'f' to retry" ++ nl.

(** Three records with distinct ids, the second one selected. *)
Definition threeModel : Model :=
  mkModel [issue42; pull42; noSegment] 1 false None false ""
    "Loaded 3 notifications" 80 24.

(** ** The columns of a row *)

(** The title as a column [w] bytes wide shows it: whole when it fits,
    otherwise its first [w - 3] bytes and an ellipsis. *)
Definition shownTitle (w : Z) (title : string) : string :=
  if strlen title >? w
  then substring 0 (Z.to_nat (w - 3)) title ++ "..."
  else title.

(** The repository name in its column of 20 bytes. *)
Definition shownRepo (repo : string) : string :=
  if strlen repo >? 20 then substring 0 17 repo ++ "..." else repo.

(** The layout of the format string [%2d %s %-20s %-10s %s]. *)
Definition rowColumns (runes : string -> nat)
  (number icon repo type title : string) : string :=
  Fmt.padLeft 2 number ++ " " ++ icon ++ " "
  ++ Fmt.padRight runes 20 repo ++ " "
  ++ Fmt.padRight runes 10 type ++ " " ++ title.

(** * Properties *)

(** ** Arithmetic on [int] *)

Module GoIntFacts.
Import GoInt.

Lemma wrap_small (x : Z) : min_int <= x <= max_int -> wrap x = x.
Proof.
  unfold min_int, max_int, wrap; intros H.
  rewrite Z.mod_small; lia.
Qed.

Lemma wrap_range (x : Z) : min_int <= wrap x <= max_int.
Proof.
  unfold min_int, max_int, wrap.
  pose proof (Z.mod_pos_bound (x + 2 ^ 63) (2 ^ 64) ltac:(lia)); lia.
Qed.

Lemma sub_small (x y : Z) : min_int <= x - y <= max_int -> sub x y = x - y.
Proof. apply wrap_small. Qed.

Lemma add_small (x y : Z) : min_int <= x + y <= max_int -> add x y = x + y.
Proof. apply wrap_small. Qed.

End GoIntFacts.

(** ** Slices *)

Lemma len_nonneg {A : Type} (l : list A) : 0 <= len l.
Proof. unfold len; lia. Qed.

Lemma len_app {A : Type} (l1 l2 : list A) :
  len (l1 ++ l2)%list = len l1 + len l2.
Proof. unfold len; rewrite length_app; lia. Qed.

Lemma len_cons {A : Type} (a : A) (l : list A) : len (a :: l) = len l + 1.
Proof. unfold len; cbn [List.length]; lia. Qed.

Lemma index_in_range {A : Type} (l : list A) (i : Z) :
  0 <= i < len l -> exists a, index l i = Some a.
Proof.
  intros H; unfold index.
  replace ((0 <=? i) && (i <? len l)) with true by (symmetry; apply andb_true_iff; split; [apply Z.leb_le | apply Z.ltb_lt]; lia).
  destruct (nth_error l (Z.to_nat i)) eqn:E; [eauto|].
  apply nth_error_None in E; unfold len in H; lia.
Qed.

Lemma index_last {A : Type} (l : list A) (d : A) :
  l <> [] -> index l (len l - 1) = Some (last l d).
Proof.
  intros Hne.
  destruct (exists_last Hne) as (l' & a & ->).
  rewrite last_last; unfold index.
  rewrite len_app; change (len [a]) with 1.
  pose proof (len_nonneg l').
  replace ((0 <=? len l' + 1 - 1) && (len l' + 1 - 1 <? len l' + 1)) with true
    by (symmetry; apply andb_true_iff; split; [apply Z.leb_le | apply Z.ltb_lt]; lia).
  replace (Z.to_nat (len l' + 1 - 1)) with (List.length l') by (unfold len; lia).
  rewrite nth_error_app2, Nat.sub_diag by lia; reflexivity.
Qed.

(** ** [strings.Split] and the final path segment *)

Lemma Split_nonempty (s : string) (sep : ascii) : Strings.Split s sep <> [].
Proof.
  destruct s as [|c r]; simpl; [discriminate|].
  destruct (Ascii.eqb c sep); [discriminate|].
  destruct (Strings.Split r sep); discriminate.
Qed.

Lemma Split_length (s : string) (sep : ascii) :
  (List.length (Strings.Split s sep) <= S (String.length s))%nat.
Proof.
  induction s as [|c r IH]; simpl; [lia|].
  destruct (Ascii.eqb c sep); simpl; [lia|].
  destruct (Strings.Split r sep); simpl in *; lia.
Qed.

Lemma Split_no_sep (s : string) (sep : ascii) :
  contains_byte sep s = false -> Strings.Split s sep = [s].
Proof.
  induction s as [|c r IH]; simpl; [reflexivity|].
  intros H; apply orb_false_iff in H as [Hc Hr].
  rewrite Hc, (IH Hr); reflexivity.
Qed.

Lemma last_cons_nonempty {A : Type} (a : A) (l : list A) (d : A) :
  l <> [] -> last (a :: l) d = last l d.
Proof. destruct l; [congruence | reflexivity]. Qed.

Lemma Split_sep_two_parts (p s : string) (sep : ascii) :
  (2 <= List.length (Strings.Split (p ++ String sep s) sep))%nat.
Proof.
  induction p as [|a r IH]; simpl.
  - rewrite Ascii.eqb_refl; simpl.
    pose proof (Split_nonempty s sep).
    destruct (Strings.Split s sep); [congruence | simpl; lia].
  - destruct (Ascii.eqb a sep); simpl; [lia|].
    destruct (Strings.Split (r ++ String sep s) sep); simpl in *; lia.
Qed.

Lemma Split_last_segment (p s : string) (sep : ascii) :
  contains_byte sep s = false ->
  last (Strings.Split (p ++ String sep s) sep) "" = s.
Proof.
  intros Hs; induction p as [|c r IH]; simpl.
  - rewrite Ascii.eqb_refl, (Split_no_sep _ _ Hs); reflexivity.
  - destruct (Ascii.eqb c sep).
    + rewrite last_cons_nonempty by apply Split_nonempty; exact IH.
    + pose proof (Split_sep_two_parts r s sep) as H2.
      destruct (Strings.Split (r ++ String sep s) sep) as [|h [|h' t]];
        simpl in H2; try lia.
      exact IH.
Qed.

Lemma extractIssueNumber_last (url : string) :
  strlen url < GoInt.max_int ->
  extractIssueNumber url = Some (last (Strings.Split url slash) "").
Proof.
  intros Hlen; unfold extractIssueNumber.
  pose proof (Split_nonempty url slash) as Hne.
  pose proof (Split_length url slash) as Hle.
  assert (Hpos : 0 < len (Strings.Split url slash)).
  { unfold len; destruct (Strings.Split url slash); [congruence | simpl; lia]. }
  replace (len (Strings.Split url slash) >? 0) with true
    by (symmetry; apply Z.gtb_lt; lia).
  rewrite GoIntFacts.sub_small.
  - apply index_last; exact Hne.
  - unfold GoInt.min_int, GoInt.max_int, strlen, len in *; lia.
Qed.

Lemma extractIssueNumber_final_segment (url seg : string) :
  strlen url < GoInt.max_int ->
  final_segment url seg ->
  extractIssueNumber url = Some seg.
Proof.
  intros Hlen [Hseg [-> | [p ->]]]; rewrite extractIssueNumber_last by exact Hlen.
  - rewrite (Split_no_sep _ _ Hseg); reflexivity.
  - rewrite Split_last_segment by exact Hseg; reflexivity.
Qed.

(** ** Resolving the browser target *)

Lemma openInBrowser_command_segment (n : Notification) (seg : string) :
  extractIssueNumber (URL (Subject_ n)) = Some seg ->
  openInBrowser_command n =
    Some (if (seg =? "")%string then repoView (RepoName n)
          else if (Type_ (Subject_ n) =? "Issue")%string
               then issueView seg (RepoName n)
          else if (Type_ (Subject_ n) =? "PullRequest")%string
               then prView seg (RepoName n)
          else repoView (RepoName n)).
Proof.
  intros H; unfold openInBrowser_command; rewrite H; simpl.
  destruct (seg =? "")%string; simpl; [reflexivity|].
  destruct (Type_ (Subject_ n) =? "Issue")%string; [reflexivity|].
  destruct (Type_ (Subject_ n) =? "PullRequest")%string; reflexivity.
Qed.

(** C1, as the specification words it, fails: an issue record whose URL ends
    in the non-numeric segment [abc] is resolved to the issue view of [abc],
    not to the repository view. *)
Lemma openInBrowser_non_numeric_segment :
  let n := mkNotification "7" true "mention" (mkRepository "octo/repo")
             (mkSubject "Issue" "Crash on start"
                "https://api.github.com/repos/octo/repo/issues/abc") 0 in
  final_segment (URL (Subject_ n)) "abc" /\
  numeric_like "abc" = false /\
  openInBrowser_command n = Some (issueView "abc" "octo/repo") /\
  openInBrowser_command n <> Some (repoView (RepoName n)).
Proof.
  cbv zeta; repeat split.
  - right; exists "https://api.github.com/repos/octo/repo/issues"; reflexivity.
  - discriminate.
Qed.

(** C1 (amended): the target is resolved from the subject type and the
    trailing path segment of the subject URL.  A non-empty segment is the
    identifier of an issue view for type Issue and of a pull-request view for
    type PullRequest, numeric or not; the repository view is the target when
    the segment is empty or the type is any other. *)
Theorem openInBrowser_target (n : Notification) (seg : string) :
  strlen (URL (Subject_ n)) < GoInt.max_int ->
  final_segment (URL (Subject_ n)) seg ->
  (seg <> "" -> Type_ (Subject_ n) = "Issue" ->
     openInBrowser_command n = Some (issueView seg (RepoName n))) /\
  (seg <> "" -> Type_ (Subject_ n) = "PullRequest" ->
     openInBrowser_command n = Some (prView seg (RepoName n))) /\
  (seg = "" -> openInBrowser_command n = Some (repoView (RepoName n))) /\
  (Type_ (Subject_ n) <> "Issue" -> Type_ (Subject_ n) <> "PullRequest" ->
     openInBrowser_command n = Some (repoView (RepoName n))).
Proof.
  intros Hlen Hseg.
  rewrite (openInBrowser_command_segment n seg)
    by (apply extractIssueNumber_final_segment; assumption).
  repeat split.
  - intros Hne Ht; rewrite Ht.
    apply String.eqb_neq in Hne; rewrite Hne; reflexivity.
  - intros Hne Ht; rewrite Ht.
    apply String.eqb_neq in Hne; rewrite Hne; reflexivity.
  - intros ->; reflexivity.
  - intros H1 H2.
    apply String.eqb_neq in H1, H2; rewrite H1, H2.
    destruct (seg =? "")%string; reflexivity.
Qed.

Lemma openInBrowser_target_witness :
  openInBrowser_command issue42 = Some (issueView "42" "octo/repo") /\
  openInBrowser_command pull42 = Some (prView "42" "octo/repo") /\
  openInBrowser_command noSegment = Some (repoView "octo/repo").
Proof.
  assert (L : forall n, strlen (URL (Subject_ n)) < 100 ->
                        strlen (URL (Subject_ n)) < GoInt.max_int)
    by (unfold GoInt.max_int; lia).
  split; [|split].
  - refine (proj1 (openInBrowser_target issue42 "42" _ _) _ _).
    + apply L; vm_compute; reflexivity.
    + split; [reflexivity|].
      right; exists "https://api.github.com/repos/octo/repo/issues"; reflexivity.
    + discriminate.
    + reflexivity.
  - refine (proj1 (proj2 (openInBrowser_target pull42 "42" _ _)) _ _).
    + apply L; vm_compute; reflexivity.
    + split; [reflexivity|].
      right; exists "https://api.github.com/repos/octo/repo/pulls"; reflexivity.
    + discriminate.
    + reflexivity.
  - refine (proj1 (proj2 (proj2 (openInBrowser_target noSegment "" _ _))) _).
    + apply L; vm_compute; reflexivity.
    + split; [reflexivity|].
      right; exists "https://api.github.com/repos/octo/repo/issues"; reflexivity.
    + reflexivity.
Defined.

(** ** Results of the gateway: fetch and failures *)

Lemma Update_errorMsg (m : Model) (e : string) :
  Update m (errorMsg e) = Some (afterError e m, nilCmd).
Proof. reflexivity. Qed.

Lemma len_zero_iff {A : Type} (l : list A) : (len l =? 0) = true <-> l = [].
Proof.
  rewrite Z.eqb_eq; unfold len; destruct l; simpl; split; intros H;
    try reflexivity; try discriminate; lia.
Qed.

(** C6: a completed fetch replaces the items, clears [loading] and the error,
    and sets the status to the count-derived text; the text for an empty
    sequence is "No notifications found" and differs from every text for a
    non-empty one. *)
Theorem fetch_completed (m : Model) (ns : list Notification) :
  exists m',
    Update m (fetchNotificationsCmd_msg (inl ns)) = Some (m', nilCmd) /\
    notifications m' = ns /\
    loading m' = false /\
    err m' = None /\
    statusMessage m' = loadedStatus ns /\
    loadedStatus [] = "No notifications found" /\
    forall n ns', loadedStatus (n :: ns') <> loadedStatus [].
Proof.
  eexists; split; [reflexivity|]; simpl.
  assert (E : (len ns =? 0) = match ns with [] => true | _ => false end).
  { destruct ns as [|n ns']; [reflexivity|].
    destruct (len (n :: ns') =? 0) eqn:E; [|reflexivity].
    apply len_zero_iff in E; discriminate. }
  rewrite E.
  split; [destruct ns; reflexivity|].
  split; [destruct ns; reflexivity|].
  split; [destruct ns; reflexivity|].
  split; [destruct ns; reflexivity|].
  split; [reflexivity | intros n ns'; simpl; discriminate].
Qed.

Lemma fetch_completed_witness :
  exists m',
    Update refreshingModel (fetchNotificationsCmd_msg (inl [issue42; pull42]))
      = Some (m', nilCmd) /\
    notifications m' = [issue42; pull42] /\
    loading m' = false /\ err m' = None /\
    statusMessage m' = "Loaded 2 notifications".
Proof.
  destruct (fetch_completed refreshingModel [issue42; pull42])
    as (m' & HU & Hn & Hl & He & Hs & _).
  exists m'; repeat split; assumption.
Defined.

(** C4: a failure never touches the list.  A failed fetch leaves the items as
    they were, and a failed mark-read removes nothing. *)
Theorem failure_keeps_items (m : Model) (id e : string) :
  (exists m',
     Update m (fetchNotificationsCmd_msg (inr e)) = Some (m', nilCmd) /\
     notifications m' = notifications m) /\
  (exists m',
     Update m (markAsReadCmd_msg id (Some e)) = Some (m', nilCmd) /\
     notifications m' = notifications m).
Proof.
  split; eexists; (split; [apply Update_errorMsg | reflexivity]).
Qed.

(** C7, as the specification words it, fails: while a refresh is in flight
    ([loading] is true) a failed mark-read or a failed open resets [loading]
    to false. *)
Lemma failure_clears_loading :
  run initialModel [notificationsLoadedMsg [issue42]; KeyMsg "f"]
    = Some refreshingModel /\
  loading refreshingModel = true /\
  Update refreshingModel (markAsReadCmd_msg "7" (Some "exit status 1"))
    = Some (mkModel [issue42] 0 false
              (Some "failed to mark as read: exit status 1") false ""
              "Error: failed to mark as read: exit status 1" 80 24, nilCmd) /\
  Update refreshingModel (openInBrowserCmd_msg (Some "exit status 1"))
    = Some (mkModel [issue42] 0 false
              (Some "failed to open in browser: exit status 1") false ""
              "Error: failed to open in browser: exit status 1" 80 24, nilCmd) /\
  ~ (forall m',
       Update refreshingModel (markAsReadCmd_msg "7" (Some "exit status 1"))
         = Some (m', nilCmd) ->
       loading m' = loading refreshingModel).
Proof.
  repeat split.
  intros H; specialize (H _ eq_refl); discriminate.
Qed.

(** C7 (amended): a failed mark-read or a failed open changes [lastError],
    [statusMessage] and [loading], which becomes false; the items, the
    selection and the viewport dimensions are unchanged. *)
Theorem failure_frame (m : Model) (id e : string) :
  (exists m',
     Update m (markAsReadCmd_msg id (Some e)) = Some (m', nilCmd) /\
     m' = afterError ("failed to mark as read: " ++ e) m) /\
  (exists m',
     Update m (openInBrowserCmd_msg (Some e)) = Some (m', nilCmd) /\
     m' = afterError ("failed to open in browser: " ++ e) m) /\
  forall e',
    let m' := afterError e' m in
    notifications m' = notifications m /\
    selectedIndex m' = selectedIndex m /\
    terminalWidth m' = terminalWidth m /\
    terminalHeight m' = terminalHeight m /\
    err m' = Some e' /\
    statusMessage m' = "Error: " ++ e' /\
    loading m' = false.
Proof.
  split; [|split].
  - eexists; split; [apply Update_errorMsg | reflexivity].
  - eexists; split; [apply Update_errorMsg | reflexivity].
  - intros e'; cbv zeta; repeat split.
Qed.

(** ** Mark-read completed: removal and re-clamping *)

Lemma slice_to_app {A : Type} (pre rest : list A) :
  slice_to (pre ++ rest)%list (len pre) = Some pre.
Proof.
  unfold slice_to; rewrite len_app.
  pose proof (len_nonneg pre); pose proof (len_nonneg rest).
  replace ((0 <=? len pre) && (len pre <=? len pre + len rest)) with true
    by (symmetry; apply andb_true_iff; split; apply Z.leb_le; lia).
  unfold len; rewrite Nat2Z.id, firstn_app, Nat.sub_diag, firstn_all.
  simpl; rewrite app_nil_r; reflexivity.
Qed.

Lemma slice_from_app {A : Type} (pre : list A) (a : A) (rest : list A) :
  slice_from (pre ++ a :: rest)%list (len pre + 1) = Some rest.
Proof.
  unfold slice_from; rewrite len_app, len_cons.
  pose proof (len_nonneg pre); pose proof (len_nonneg rest).
  replace ((0 <=? len pre + 1) && (len pre + 1 <=? len pre + (len rest + 1)))
    with true by (symmetry; apply andb_true_iff; split; apply Z.leb_le; lia).
  replace (Z.to_nat (len pre + 1)) with (List.length (pre ++ [a])%list)
    by (rewrite length_app; unfold len; simpl; lia).
  change (a :: rest) with ([a] ++ rest)%list.
  rewrite app_assoc, skipn_app, skipn_all, Nat.sub_diag; reflexivity.
Qed.

(** The model [removeAt] leaves when it drops position [len pre]. *)
Lemma removeAt_split (m : Model) (pre : list Notification)
  (n : Notification) (post : list Notification) :
  notifications m = (pre ++ n :: post)%list ->
  len (notifications m) <= GoInt.max_int ->
  removeAt m (len pre) =
    Some (with_selectedIndex
            (reclamp (len (pre ++ post)%list) (selectedIndex m))
            (with_notifications (pre ++ post)%list m)).
Proof.
  intros Hm Hlen; unfold removeAt.
  rewrite Hm in Hlen |- *.
  rewrite len_app, len_cons in Hlen.
  pose proof (len_nonneg pre); pose proof (len_nonneg post).
  rewrite slice_to_app; simpl.
  rewrite GoIntFacts.add_small
    by (unfold GoInt.min_int, GoInt.max_int in *; lia).
  rewrite slice_from_app; simpl.
  unfold reclamp.
  set (l := (pre ++ post)%list).
  assert (Hl : 0 <= len l <= GoInt.max_int)
    by (unfold l; rewrite len_app; lia).
  rewrite !Z.gtb_ltb, !Z.geb_leb.
  destruct (Z.eqb_spec (len l) 0) as [E0|E0].
  - replace (0 <? len l) with false by (symmetry; apply Z.ltb_ge; lia).
    rewrite andb_false_r; simpl.
    destruct (Z.eqb_spec (len l) 0); [reflexivity | contradiction].
  - replace (0 <? len l) with true by (symmetry; apply Z.ltb_lt; lia).
    rewrite andb_true_r.
    destruct (len l <=? selectedIndex m) eqn:E1; simpl.
    + destruct (Z.eqb_spec (len l) 0); [contradiction|].
      rewrite GoIntFacts.sub_small
        by (unfold GoInt.min_int, GoInt.max_int in *; lia).
      reflexivity.
    + destruct (Z.eqb_spec (len l) 0); [contradiction|].
      destruct m; reflexivity.
Qed.

Lemma has_id_false (id : string) (l : list Notification) :
  has_id id l = false <-> forall x, In x l -> ID x <> id.
Proof.
  unfold has_id; split.
  - intros H x Hx Heq.
    assert (existsb (fun n => (ID n =? id)%string) l = true)
      by (apply existsb_exists; exists x; split; [exact Hx | apply String.eqb_eq, Heq]).
    congruence.
  - intros H; destruct (existsb _ l) eqn:E; [|reflexivity].
    apply existsb_exists in E as (x & Hx & Heq).
    apply String.eqb_eq in Heq; exfalso; exact (H x Hx Heq).
Qed.

Lemma markedLoop_no_match (id : string) (rng : list Notification) (i : Z)
  (m : Model) :
  has_id id rng = false -> markedLoop id rng i m = Some m.
Proof.
  revert i; induction rng as [|n rest IH]; intros i H; simpl in *;
    [reflexivity|].
  apply orb_false_iff in H as [Hn Hrest].
  rewrite Hn; apply IH; exact Hrest.
Qed.

(** The loop, started at position [len done] with [done] already passed
    without a match, removes the first match of [rng]. *)
Lemma markedLoop_first_match (id : string) (m : Model)
  (done pre : list Notification) (n : Notification)
  (post : list Notification) :
  notifications m = (done ++ pre ++ n :: post)%list ->
  len (notifications m) <= GoInt.max_int ->
  has_id id pre = false -> ID n = id ->
  markedLoop id (pre ++ n :: post)%list (len done) m =
    Some (with_selectedIndex
            (reclamp (len (done ++ pre ++ post)%list) (selectedIndex m))
            (with_notifications (done ++ pre ++ post)%list m)).
Proof.
  revert done; induction pre as [|p pre IH]; intros done Hm Hlen Hpre Hn.
  - simpl in *. apply String.eqb_eq in Hn; rewrite Hn.
    apply (removeAt_split m done n post); assumption.
  - simpl in Hpre |- *; apply orb_false_iff in Hpre as [Hp Hpre].
    rewrite Hp.
    replace (len done + 1) with (len (done ++ [p])%list)
      by (rewrite len_app; reflexivity).
    rewrite (IH (done ++ [p])%list); try assumption.
    + rewrite <- !app_assoc; reflexivity.
    + rewrite <- app_assoc; exact Hm.
Qed.

Lemma remove_first_split (id : string) (pre : list Notification)
  (n : Notification) (post : list Notification) :
  has_id id pre = false -> ID n = id ->
  remove_first id (pre ++ n :: post)%list = (pre ++ post)%list.
Proof.
  intros Hpre Hn; induction pre as [|p pre IH]; simpl in *.
  - apply String.eqb_eq in Hn; rewrite Hn; reflexivity.
  - apply orb_false_iff in Hpre as [Hp Hpre].
    rewrite Hp, (IH Hpre); reflexivity.
Qed.

Lemma remove_first_no_match (id : string) (l : list Notification) :
  has_id id l = false -> remove_first id l = l.
Proof.
  induction l as [|p l IH]; simpl; [reflexivity|]; intros H.
  apply orb_false_iff in H as [Hp Hl]; rewrite Hp, (IH Hl); reflexivity.
Qed.

Lemma has_id_split (id : string) (l : list Notification) :
  has_id id l = true ->
  exists pre n post,
    l = (pre ++ n :: post)%list /\ has_id id pre = false /\ ID n = id.
Proof.
  induction l as [|p l IH]; simpl; [discriminate|].
  destruct (ID p =? id)%string eqn:Ep; simpl; intros H.
  - exists [], p, l; repeat split; apply String.eqb_eq, Ep.
  - destruct (IH H) as (pre & n & post & -> & Hpre & Hn).
    exists (p :: pre), n, post; simpl; rewrite Ep, Hpre; repeat split; exact Hn.
Qed.

(** The whole transition, in closed form. *)
Lemma Update_marked (m : Model) (id : string) :
  len (notifications m) <= GoInt.max_int ->
  Update m (notificationMarkedMsg id) =
    Some (with_statusMessage "Notification marked as read"
            (if has_id id (notifications m)
             then with_selectedIndex
                    (reclamp (len (remove_first id (notifications m)))
                       (selectedIndex m))
                    (with_notifications (remove_first id (notifications m)) m)
             else m), nilCmd).
Proof.
  intros Hlen; unfold Update.
  destruct (has_id id (notifications m)) eqn:E.
  - destruct (has_id_split _ _ E) as (pre & n & post & Hm & Hpre & Hn).
    pose proof (markedLoop_first_match id m [] pre n post Hm Hlen Hpre Hn)
      as HL.
    change (len (@nil Notification)) with 0 in HL; simpl app in HL.
    rewrite Hm at 1; rewrite HL.
    simpl; rewrite Hm, (remove_first_split _ _ _ _ Hpre Hn); reflexivity.
  - rewrite markedLoop_no_match by exact E; reflexivity.
Qed.

Lemma len_remove_first (id : string) (l : list Notification) :
  has_id id l = true -> len (remove_first id l) = len l - 1.
Proof.
  intros H; destruct (has_id_split _ _ H) as (pre & n & post & -> & Hpre & Hn).
  rewrite (remove_first_split _ _ _ _ Hpre Hn), !len_app, len_cons; lia.
Qed.

Lemma index_In {A : Type} (l : list A) (i : Z) (a : A) :
  index l i = Some a -> In a l.
Proof.
  unfold index; destruct ((0 <=? i) && (i <? len l)); [|discriminate].
  apply nth_error_In.
Qed.

Lemma has_id_In (id : string) (l : list Notification) (n : Notification) :
  In n l -> ID n = id -> has_id id l = true.
Proof.
  intros Hin Hid; apply existsb_exists; exists n; split;
    [exact Hin | apply String.eqb_eq, Hid].
Qed.

Lemma len_zero_nil {A : Type} (l : list A) : len l = 0 -> l = [].
Proof. intros H; apply len_zero_iff, Z.eqb_eq, H. Qed.

Lemma reclamp_in_range (n sel : Z) :
  0 <= n -> 0 <= sel ->
  (n = 0 /\ reclamp n sel = 0) \/ 0 <= reclamp n sel <= n - 1.
Proof.
  intros Hn Hsel; unfold reclamp.
  destruct (Z.eqb_spec n 0); [left; split; [assumption | reflexivity]|].
  right; rewrite Z.geb_leb; destruct (Z.leb_spec n sel); lia.
Qed.

Lemma reclamp_cases (n sel : Z) :
  0 <= n ->
  (n = 0 -> reclamp n sel = 0) /\
  (n <> 0 -> sel < n -> reclamp n sel = sel) /\
  (n <> 0 -> n <= sel -> reclamp n sel = n - 1).
Proof.
  intros Hn; unfold reclamp; rewrite Z.geb_leb.
  destruct (Z.eqb_spec n 0), (Z.leb_spec n sel); repeat split; intros; lia.
Qed.

Lemma len_nil_iff {A : Type} (l : list A) : len l = 0 <-> l = [].
Proof.
  split; [apply len_zero_nil | intros ->; reflexivity].
Qed.

(** C2: a completed mark-read removes the first record with the id and
    re-clamps the selection in the same transition: with no record removed
    the selection is unchanged; after a removal it is 0 when the list became
    empty, unchanged when it is still below the new length, and the new last
    position otherwise; nothing else changes but the status.  The cursor
    invariant is kept.  From five items with the selection on the last one,
    marking the id found there leaves four items and the selection at 3; on
    an empty list the selection stays 0; and the transition never fails. *)
Theorem marked_removes_and_reclamps (m : Model) (id : string) :
  len (notifications m) <= GoInt.max_int ->
  exists m',
    Update m (notificationMarkedMsg id) = Some (m', nilCmd) /\
    notifications m' = remove_first id (notifications m) /\
    (cursor_ok m -> cursor_ok m') /\
    (has_id id (notifications m) = true -> 0 <= selectedIndex m ->
       cursor_ok m') /\
    (len (notifications m) = 5 -> selectedIndex m = 4 ->
       (exists n, index (notifications m) 4 = Some n /\ ID n = id) ->
       len (notifications m') = 4 /\ selectedIndex m' = 3) /\
    (notifications m = [] -> selectedIndex m = 0 ->
       notifications m' = [] /\ selectedIndex m' = 0) /\
    (has_id id (notifications m) = false ->
       selectedIndex m' = selectedIndex m) /\
    (has_id id (notifications m) = true ->
       len (notifications m') = len (notifications m) - 1 /\
       (notifications m' = [] -> selectedIndex m' = 0) /\
       (notifications m' <> [] ->
          selectedIndex m < len (notifications m') ->
          selectedIndex m' = selectedIndex m) /\
       (notifications m' <> [] ->
          len (notifications m') <= selectedIndex m ->
          selectedIndex m' = len (notifications m') - 1)) /\
    loading m' = loading m /\
    err m' = err m /\
    terminalWidth m' = terminalWidth m /\
    terminalHeight m' = terminalHeight m /\
    statusMessage m' = "Notification marked as read".
Proof.
  intros Hlen; rewrite (Update_marked m id Hlen).
  eexists; split; [reflexivity|].
  destruct (has_id id (notifications m)) eqn:E; simpl.
  - assert (Hclamp : 0 <= selectedIndex m ->
      cursor_ok
        (with_statusMessage "Notification marked as read"
           (with_selectedIndex
              (reclamp (len (remove_first id (notifications m)))
                 (selectedIndex m))
              (with_notifications (remove_first id (notifications m)) m)))).
    { intros Hsel; unfold cursor_ok; simpl.
      destruct (reclamp_in_range (len (remove_first id (notifications m)))
                  (selectedIndex m) (len_nonneg _) Hsel) as [[H0 H1]|H];
        [left; split; [apply len_zero_nil, H0 | exact H1] | right; exact H]. }
    destruct (reclamp_cases (len (remove_first id (notifications m)))
                (selectedIndex m) (len_nonneg _)) as (Hz & Hin & Hout).
    split; [reflexivity|].
    split; [|split; [|split; [|split; [|split; [|split]]]]].
    + intros [[Hnil _]|Hr]; [rewrite Hnil in E; discriminate|].
      apply Hclamp; lia.
    + intros _; exact Hclamp.
    + intros H5 H4 _.
      rewrite (len_remove_first _ _ E), H5, H4; split; reflexivity.
    + intros Hnil; rewrite Hnil in E; discriminate.
    + discriminate.
    + intros _.
      split; [apply len_remove_first, E|].
      split; [intros Hnil; apply Hz, len_nil_iff, Hnil|].
      split; intros Hne; [apply Hin | apply Hout];
        intros H0; apply Hne, len_nil_iff, H0.
    + repeat split.
  - split; [rewrite (remove_first_no_match _ _ E); reflexivity|].
    split; [|split; [|split; [|split; [|split; [|split]]]]].
    + intros H; exact H.
    + discriminate.
    + intros _ _ (n & Hn & Hid).
      rewrite (has_id_In id _ n (index_In _ _ _ Hn) Hid) in E; discriminate.
    + intros Hnil Hsel; split; assumption.
    + intros _; reflexivity.
    + discriminate.
    + repeat split.
Qed.

Lemma marked_removes_and_reclamps_witness :
  (exists m',
     Update fiveModel (notificationMarkedMsg "e") = Some (m', nilCmd) /\
     len (notifications m') = 4 /\ selectedIndex m' = 3) /\
  (exists m',
     Update emptyModel (notificationMarkedMsg "e") = Some (m', nilCmd) /\
     notifications m' = [] /\ selectedIndex m' = 0) /\
  (exists m',
     Update (with_selectedIndex 1 fiveModel) (notificationMarkedMsg "e")
       = Some (m', nilCmd) /\
     len (notifications m') = 4 /\ selectedIndex m' = 1) /\
  (exists m',
     Update (with_selectedIndex 1 fiveModel) (notificationMarkedMsg "zz")
       = Some (m', nilCmd) /\
     notifications m' = fiveItems /\ selectedIndex m' = 1).
Proof.
  split; [|split; [|split]].
  - destruct (marked_removes_and_reclamps fiveModel "e")
      as (m' & HU & _ & _ & _ & H5 & _).
    + vm_compute; discriminate.
    + exists m'; split; [exact HU|].
      apply H5; [reflexivity | reflexivity |].
      eexists; split; reflexivity.
  - destruct (marked_removes_and_reclamps emptyModel "e")
      as (m' & HU & _ & _ & _ & _ & H0 & _).
    + vm_compute; discriminate.
    + exists m'; split; [exact HU|].
      apply H0; reflexivity.
  - destruct (marked_removes_and_reclamps (with_selectedIndex 1 fiveModel) "e")
      as (m' & HU & _ & _ & _ & _ & _ & _ & Hrm & _).
    + vm_compute; discriminate.
    + destruct (Hrm eq_refl) as (Hl & _ & Hin & _).
      exists m'; split; [exact HU|].
      split; [exact Hl|].
      apply Hin.
      * intros Hnil; rewrite Hnil in Hl; discriminate Hl.
      * rewrite Hl; vm_compute; reflexivity.
  - destruct (marked_removes_and_reclamps (with_selectedIndex 1 fiveModel)
                "zz")
      as (m' & HU & Hn & _ & _ & _ & _ & Hsame & _).
    + vm_compute; discriminate.
    + exists m'; split; [exact HU|].
      split; [exact Hn | exact (Hsame eq_refl)].
Defined.

(** C9: when the id of a completed mark-read matches no record, the items,
    the selection, [loading] and the error are unchanged and the status is
    still set to the confirmation text. *)
Theorem marked_unknown_id (m : Model) (id : string) :
  notifications m <> [] ->
  (forall n, In n (notifications m) -> ID n <> id) ->
  exists m',
    Update m (notificationMarkedMsg id) = Some (m', nilCmd) /\
    notifications m' = notifications m /\
    selectedIndex m' = selectedIndex m /\
    loading m' = loading m /\
    err m' = err m /\
    statusMessage m' = "Notification marked as read".
Proof.
  intros _ H; apply has_id_false in H.
  unfold Update; rewrite (markedLoop_no_match id _ 0 m H); simpl.
  eexists; split; [reflexivity|]; repeat split.
Qed.

Lemma marked_unknown_id_witness :
  exists m',
    Update fiveModel (notificationMarkedMsg "zz") = Some (m', nilCmd) /\
    notifications m' = fiveItems /\
    selectedIndex m' = 4 /\
    loading m' = false /\
    err m' = None /\
    statusMessage m' = "Notification marked as read".
Proof.
  apply (marked_unknown_id fiveModel "zz").
  - discriminate.
  - intros n Hn; simpl in Hn.
    repeat (destruct Hn as [<-|Hn]; [discriminate|]); contradiction.
Defined.

Lemma count_id_app (id : string) (l1 l2 : list Notification) :
  count_id id (l1 ++ l2)%list = (count_id id l1 + count_id id l2)%nat.
Proof. unfold count_id; rewrite filter_app, length_app; reflexivity. Qed.

Lemma count_id_cons_match (id : string) (n : Notification)
  (l : list Notification) :
  ID n = id -> count_id id (n :: l) = S (count_id id l).
Proof.
  intros H; apply String.eqb_eq in H; unfold count_id; simpl.
  rewrite H; reflexivity.
Qed.

(** C10: with several records of the same id, a completed mark-read removes
    the first of them only; everything after it, later duplicates included,
    stays in place, and the number of records with that id drops by one. *)
Theorem marked_removes_first_duplicate (m : Model) (id : string)
  (pre : list Notification) (n : Notification) (post : list Notification) :
  len (notifications m) <= GoInt.max_int ->
  notifications m = (pre ++ n :: post)%list ->
  (forall x, In x pre -> ID x <> id) ->
  ID n = id ->
  exists m',
    Update m (notificationMarkedMsg id) = Some (m', nilCmd) /\
    notifications m' = (pre ++ post)%list /\
    S (count_id id (notifications m')) = count_id id (notifications m).
Proof.
  intros Hlen Hm Hpre Hn; apply has_id_false in Hpre.
  rewrite (Update_marked m id Hlen).
  assert (E : has_id id (notifications m) = true).
  { apply (has_id_In id _ n); [rewrite Hm; apply in_elt | exact Hn]. }
  rewrite E; eexists; split; [reflexivity|]; simpl.
  rewrite Hm, (remove_first_split _ _ _ _ Hpre Hn).
  split; [reflexivity|].
  rewrite !count_id_app, (count_id_cons_match id n post Hn); lia.
Qed.

Lemma marked_removes_first_duplicate_witness :
  exists m',
    Update fiveModel (notificationMarkedMsg "b") = Some (m', nilCmd) /\
    map ID (notifications m') = ["a"; "c"; "b"; "e"] /\
    count_id "b" (notifications m') = 1%nat.
Proof.
  destruct (marked_removes_first_duplicate fiveModel "b"
              (firstn 1 fiveItems) (nth 1 fiveItems issue42)
              (skipn 2 fiveItems))
    as (m' & HU & Hn & Hc).
  - vm_compute; discriminate.
  - reflexivity.
  - intros x Hx; simpl in Hx.
    destruct Hx as [<-|Hx]; [discriminate | contradiction].
  - reflexivity.
  - exists m'; split; [exact HU|].
    split; [rewrite Hn; reflexivity|].
    apply eq_add_S; rewrite Hc; reflexivity.
Defined.

(** ** Navigation keys *)

Lemma handleKeyPress_nav (m : Model) (key : string) :
  nav_key key = true ->
  handleKeyPress m key = Some (moveUp m, nilCmd) \/
  handleKeyPress m key = Some (moveDown m, nilCmd).
Proof.
  unfold nav_key; intros H.
  repeat (apply orb_true_iff in H as [H|H]);
    apply String.eqb_eq in H; subst key; [left | left | right | right];
    reflexivity.
Qed.

Lemma moveUp_cursor (m : Model) :
  len (notifications m) <= GoInt.max_int -> cursor_ok m ->
  cursor_ok (moveUp m) /\ notifications (moveUp m) = notifications m.
Proof.
  intros Hlen Hc; unfold moveUp.
  rewrite Z.gtb_ltb; destruct (Z.ltb_spec 0 (selectedIndex m));
    [|split; [exact Hc | reflexivity]].
  split; [|reflexivity].
  destruct Hc as [[_ H0]|Hr]; [lia|].
  right; simpl.
  rewrite GoIntFacts.sub_small
    by (unfold GoInt.min_int, GoInt.max_int in *; lia).
  lia.
Qed.

Lemma moveDown_cursor (m : Model) :
  len (notifications m) <= GoInt.max_int -> cursor_ok m ->
  cursor_ok (moveDown m) /\ notifications (moveDown m) = notifications m.
Proof.
  intros Hlen Hc; unfold moveDown.
  pose proof (len_nonneg (notifications m)) as Hn.
  rewrite GoIntFacts.sub_small
    by (unfold GoInt.min_int, GoInt.max_int in *; lia).
  destruct (Z.ltb_spec (selectedIndex m) (len (notifications m) - 1));
    [|split; [exact Hc | reflexivity]].
  split; [|reflexivity].
  right; simpl.
  assert (0 <= selectedIndex m).
  { destruct Hc as [[_ H0]|Hr]; lia. }
  rewrite GoIntFacts.add_small
    by (unfold GoInt.min_int, GoInt.max_int in *; lia).
  lia.
Qed.

(** C3: from a state that satisfies the cursor invariant, every sequence of
    up and down keys is processed without failure and ends in a state whose
    selection is within [0, len(items)-1], or 0 when there is no item: it is
    not negative and not at or beyond the length. *)
Theorem navigation_keeps_cursor (keys : list string) (m : Model) :
  len (notifications m) <= GoInt.max_int ->
  cursor_ok m ->
  forallb nav_key keys = true ->
  exists m',
    run m (map KeyMsg keys) = Some m' /\
    notifications m' = notifications m /\
    cursor_ok m' /\
    0 <= selectedIndex m' /\
    (notifications m' = [] \/ selectedIndex m' < len (notifications m')).
Proof.
  revert m; induction keys as [|key keys IH]; intros m Hlen Hc Hk.
  - exists m; simpl; repeat split; try assumption.
    + destruct Hc as [[_ H0]|Hr]; lia.
    + destruct Hc as [[Hnil _]|Hr]; [left; exact Hnil | right; lia].
  - simpl in Hk; apply andb_true_iff in Hk as [Hkey Hkeys].
    assert (Hstep : exists m1,
      handleKeyPress m key = Some (m1, nilCmd) /\
      cursor_ok m1 /\ notifications m1 = notifications m).
    { destruct (handleKeyPress_nav m key Hkey) as [H|H].
      - exists (moveUp m); split; [exact H | apply moveUp_cursor; assumption].
      - exists (moveDown m); split;
          [exact H | apply moveDown_cursor; assumption]. }
    destruct Hstep as (m1 & Hh & Hc1 & Hn1).
    destruct (IH m1) as (m' & Hrun & Hn' & Hrest); try assumption.
    + rewrite Hn1; exact Hlen.
    + exists m'; simpl; rewrite Hh.
      split; [exact Hrun|].
      split; [rewrite Hn', Hn1; reflexivity | exact Hrest].
Qed.

Lemma navigation_keeps_cursor_witness :
  exists m',
    run fiveModel (map KeyMsg ["down"; "j"; "up"; "k"; "k"; "up"; "k"; "up"])
      = Some m' /\
    notifications m' = fiveItems /\
    cursor_ok m' /\
    0 <= selectedIndex m' /\
    (notifications m' = [] \/ selectedIndex m' < len (notifications m')).
Proof.
  apply (navigation_keeps_cursor
           ["down"; "j"; "up"; "k"; "k"; "up"; "k"; "up"] fiveModel).
  - vm_compute; discriminate.
  - right; simpl; vm_compute; split; discriminate.
  - reflexivity.
Defined.

Lemma navigation_stops_at_the_ends :
  option_map selectedIndex
    (run fiveModel (map KeyMsg ["down"; "j"])) = Some 4 /\
  option_map selectedIndex
    (run fiveModel (map KeyMsg ["up"; "k"; "k"; "up"; "k"; "up"])) = Some 0.
Proof. split; reflexivity. Qed.

(** ** Row formatting *)

Lemma length_substring_prefix (n : nat) (s : string) :
  (n <= String.length s)%nat -> String.length (substring 0 n s) = n.
Proof.
  revert s; induction n as [|n IH]; intros s H.
  - destruct s; reflexivity.
  - destruct s as [|c s]; simpl in *; [lia|].
    rewrite IH by lia; reflexivity.
Qed.

Lemma str_slice_to_in_range (s : string) (j : Z) :
  0 <= j <= strlen s ->
  str_slice_to s j = Some (substring 0 (Z.to_nat j) s) /\
  strlen (substring 0 (Z.to_nat j) s) = j.
Proof.
  intros H; unfold str_slice_to.
  replace ((0 <=? j) && (j <=? strlen s)) with true
    by (symmetry; apply andb_true_iff; split; apply Z.leb_le; lia).
  split; [reflexivity|].
  unfold strlen in *; rewrite length_substring_prefix; lia.
Qed.

Lemma strlen_append (s t : string) : strlen (s ++ t) = strlen s + strlen t.
Proof.
  unfold strlen; induction s as [|c s IH]; simpl String.length in *; lia.
Qed.

Lemma maxTitleLen_bounds (m : Model) :
  20 <= maxTitleLen m <= GoInt.max_int.
Proof.
  unfold maxTitleLen.
  pose proof (GoIntFacts.wrap_range (terminalWidth m - 45)) as H.
  fold (GoInt.sub (terminalWidth m) 45) in H.
  destruct (Z.ltb_spec (GoInt.sub (terminalWidth m) 45) 20);
    unfold GoInt.max_int in *; lia.
Qed.

Lemma truncateTitle_total (m : Model) (title : string) :
  exists t,
    truncateTitle m title = Some t /\
    strlen t <= maxTitleLen m /\
    (strlen title <= maxTitleLen m -> t = title) /\
    (maxTitleLen m < strlen title ->
       t = substring 0 (Z.to_nat (maxTitleLen m - 3)) title ++ "...").
Proof.
  pose proof (maxTitleLen_bounds m) as Hb.
  unfold truncateTitle; rewrite Z.gtb_ltb.
  destruct (Z.ltb_spec (maxTitleLen m) (strlen title)) as [Hlt|Hge].
  - rewrite GoIntFacts.sub_small
      by (unfold GoInt.min_int, GoInt.max_int in *; lia).
    destruct (str_slice_to_in_range title (maxTitleLen m - 3)) as [Hs Hl];
      [lia|].
    rewrite Hs; cbn [bind]; eexists; split; [reflexivity|].
    split; [rewrite strlen_append, Hl; change (strlen "...") with 3; lia|].
    split; [lia | reflexivity].
  - exists title; split; [reflexivity|].
    split; [exact Hge|]. split; [reflexivity | lia].
Qed.

Lemma truncateRepo_total (repo : string) :
  exists r,
    truncateRepo repo = Some r /\
    strlen r <= 20 /\
    (strlen repo <= 20 -> r = repo) /\
    (20 < strlen repo -> r = substring 0 17 repo ++ "...").
Proof.
  unfold truncateRepo; rewrite Z.gtb_ltb.
  destruct (Z.ltb_spec 20 (strlen repo)) as [Hlt|Hge].
  - destruct (str_slice_to_in_range repo 17) as [Hs Hl]; [lia|].
    rewrite Hs; cbn [bind]; eexists; split; [reflexivity|].
    split; [rewrite strlen_append, Hl; change (strlen "...") with 3; lia|].
    split; [lia | reflexivity].
  - exists repo; split; [reflexivity|].
    split; [exact Hge|]. split; [reflexivity | lia].
Qed.

Lemma formatNotificationLine_some (Render : Style -> string -> string)
  (runes : string -> nat) (m : Model) (n : Notification) (i : Z) :
  exists line, formatNotificationLine Render runes m n i = Some line.
Proof.
  unfold formatNotificationLine.
  destruct (truncateTitle_total m (Title (Subject_ n))) as (t & -> & _).
  destruct (truncateRepo_total (RepoName n)) as (r & -> & _).
  simpl; eexists; reflexivity.
Qed.

Lemma truncateTitle_shown (m : Model) (title : string) :
  truncateTitle m title = Some (shownTitle (maxTitleLen m) title) /\
  strlen (shownTitle (maxTitleLen m) title)
    = Z.min (strlen title) (maxTitleLen m) /\
  (maxTitleLen m < strlen title ->
     0 <= maxTitleLen m - 3 <= strlen title /\
     str_slice_to title (GoInt.sub (maxTitleLen m) 3)
       = Some (substring 0 (Z.to_nat (maxTitleLen m - 3)) title)).
Proof.
  pose proof (maxTitleLen_bounds m) as Hb.
  assert (Hsub : GoInt.sub (maxTitleLen m) 3 = maxTitleLen m - 3)
    by (apply GoIntFacts.sub_small;
        unfold GoInt.min_int, GoInt.max_int in *; lia).
  unfold truncateTitle, shownTitle; rewrite Z.gtb_ltb, Hsub.
  destruct (Z.ltb_spec (maxTitleLen m) (strlen title)) as [Hlt|Hge].
  - destruct (str_slice_to_in_range title (maxTitleLen m - 3)) as [Hs Hl];
      [lia|].
    rewrite Hs; cbn [bind].
    split; [reflexivity|].
    split; [rewrite strlen_append, Hl; change (strlen "...") with 3; lia|].
    intros _; split; [lia | reflexivity].
  - split; [reflexivity|]. split; [lia|]. intros H; lia.
Qed.

Lemma truncateRepo_shown (repo : string) :
  truncateRepo repo = Some (shownRepo repo) /\
  strlen (shownRepo repo) = Z.min (strlen repo) 20 /\
  (20 < strlen repo ->
     str_slice_to repo 17 = Some (substring 0 17 repo)).
Proof.
  unfold truncateRepo, shownRepo; rewrite Z.gtb_ltb.
  destruct (Z.ltb_spec 20 (strlen repo)) as [Hlt|Hge].
  - destruct (str_slice_to_in_range repo 17) as [Hs Hl]; [lia|].
    change (Z.to_nat 17) with 17%nat in Hs, Hl.
    rewrite Hs; cbn [bind].
    split; [reflexivity|].
    split; [rewrite strlen_append, Hl; change (strlen "...") with 3; lia|].
    intros _; reflexivity.
  - split; [reflexivity|]. split; [lia|]. intros H; lia.
Qed.

Lemma formatNotificationLine_row (Render : Style -> string -> string)
  (runes : string -> nat) (m : Model) (n : Notification) (i : Z) :
  formatNotificationLine Render runes m n i =
    Some (rowColumns runes (Fmt.itoa (GoInt.add i 1))
            (Render (if Unread n then unreadStyle else readStyle)
               (StatusIcon n))
            (shownRepo (RepoName n)) (TypeDisplay n)
            (shownTitle (maxTitleLen m) (Title (Subject_ n)))).
Proof.
  unfold formatNotificationLine.
  rewrite (proj1 (truncateTitle_shown m (Title (Subject_ n)))).
  rewrite (proj1 (truncateRepo_shown (RepoName n))).
  cbn [bind]; destruct (Unread n); reflexivity.
Qed.

(** C8: formatting a row never fails, whatever the strings and the width.
    The row is the five columns of the format string, with the repository
    name cut to 20 bytes and the title cut to the title width; that width is
    at least 20, a slice of the title or of the repository name is taken only
    within the string, and the columns that result fit their widths; at
    width 40 the title width is exactly 20, so the row shows a longer title
    as its first 17 bytes and an ellipsis. *)
Theorem formatNotificationLine_total (Render : Style -> string -> string)
  (runes : string -> nat) (m : Model) (n : Notification) (i : Z) :
  20 <= maxTitleLen m /\
  (exists line, formatNotificationLine Render runes m n i = Some line) /\
  (exists t, truncateTitle m (Title (Subject_ n)) = Some t /\
             strlen t <= maxTitleLen m) /\
  (exists r, truncateRepo (RepoName n) = Some r /\ strlen r <= 20) /\
  (terminalWidth m = 40 ->
     maxTitleLen m = 20 /\
     (20 < strlen (Title (Subject_ n)) ->
        truncateTitle m (Title (Subject_ n)) =
          Some (substring 0 17 (Title (Subject_ n)) ++ "...")) /\
     (strlen (Title (Subject_ n)) <= 20 ->
        truncateTitle m (Title (Subject_ n)) = Some (Title (Subject_ n)))) /\
  formatNotificationLine Render runes m n i =
    Some (rowColumns runes (Fmt.itoa (GoInt.add i 1))
            (Render (if Unread n then unreadStyle else readStyle)
               (StatusIcon n))
            (shownRepo (RepoName n)) (TypeDisplay n)
            (shownTitle (maxTitleLen m) (Title (Subject_ n)))) /\
  strlen (shownTitle (maxTitleLen m) (Title (Subject_ n)))
    = Z.min (strlen (Title (Subject_ n))) (maxTitleLen m) /\
  strlen (shownRepo (RepoName n)) = Z.min (strlen (RepoName n)) 20 /\
  (maxTitleLen m < strlen (Title (Subject_ n)) ->
     0 <= maxTitleLen m - 3 <= strlen (Title (Subject_ n)) /\
     str_slice_to (Title (Subject_ n)) (GoInt.sub (maxTitleLen m) 3)
       = Some (substring 0 (Z.to_nat (maxTitleLen m - 3))
                 (Title (Subject_ n)))) /\
  (20 < strlen (RepoName n) ->
     str_slice_to (RepoName n) 17 = Some (substring 0 17 (RepoName n))) /\
  (terminalWidth m = 40 ->
     formatNotificationLine Render runes m n i =
       Some (rowColumns runes (Fmt.itoa (GoInt.add i 1))
               (Render (if Unread n then unreadStyle else readStyle)
                  (StatusIcon n))
               (shownRepo (RepoName n)) (TypeDisplay n)
               (shownTitle 20 (Title (Subject_ n)))) /\
     (20 < strlen (Title (Subject_ n)) ->
        shownTitle 20 (Title (Subject_ n)) =
          substring 0 17 (Title (Subject_ n)) ++ "...") /\
     (strlen (Title (Subject_ n)) <= 20 ->
        shownTitle 20 (Title (Subject_ n)) = Title (Subject_ n))).
Proof.
  split; [apply maxTitleLen_bounds|].
  split; [apply formatNotificationLine_some|].
  destruct (truncateTitle_total m (Title (Subject_ n)))
    as (t & Ht & Hlt & Hshort & Hlong).
  destruct (truncateRepo_total (RepoName n)) as (r & Hr & Hlr & _).
  destruct (truncateTitle_shown m (Title (Subject_ n)))
    as (_ & Hlen_t & Hslice_t).
  destruct (truncateRepo_shown (RepoName n)) as (_ & Hlen_r & Hslice_r).
  pose proof (formatNotificationLine_row Render runes m n i) as Hrow.
  assert (H40 : terminalWidth m = 40 -> maxTitleLen m = 20)
    by (intros Hw; unfold maxTitleLen; rewrite Hw; reflexivity).
  split; [exists t; split; assumption|].
  split; [exists r; split; assumption|].
  split.
  { intros Hw; rewrite (H40 Hw) in *.
    split; [reflexivity|]. rewrite Ht; split; intros H.
    - rewrite (Hlong H); reflexivity.
    - rewrite (Hshort H); reflexivity. }
  split; [exact Hrow|].
  split; [exact Hlen_t|].
  split; [exact Hlen_r|].
  split; [exact Hslice_t|].
  split; [exact Hslice_r|].
  intros Hw; rewrite (H40 Hw) in Hrow.
  split; [exact Hrow|].
  unfold shownTitle; rewrite Z.gtb_ltb; split; intros H.
  - destruct (Z.ltb_spec 20 (strlen (Title (Subject_ n)))); [reflexivity | lia].
  - destruct (Z.ltb_spec 20 (strlen (Title (Subject_ n)))); [lia | reflexivity].
Qed.

Lemma formatNotificationLine_total_witness :
  maxTitleLen narrowModel = 20 /\
  truncateTitle narrowModel (Title (Subject_ longTitle))
    = Some "A title that is l..." /\
  truncateTitle narrowModel (Title (Subject_ issue42))
    = Some "Crash on start" /\
  formatNotificationLine (fun _ s => s) String.length narrowModel longTitle 0
    = Some " 1 ● octo-organisation... issue      A title that is l..." /\
  formatNotificationLine (fun _ s => s) String.length narrowModel issue42 0
    = Some " 1 ● octo/repo            issue      Crash on start".
Proof.
  destruct (formatNotificationLine_total (fun _ s => s) String.length
              narrowModel longTitle 0)
    as (_ & _ & _ & _ & H & _ & _ & _ & _ & _ & Hrow).
  destruct (H eq_refl) as (H20 & Hlong & _).
  destruct (formatNotificationLine_total (fun _ s => s) String.length
              narrowModel issue42 0)
    as (_ & _ & _ & _ & H' & _ & _ & _ & _ & _ & Hrow').
  destruct (H' eq_refl) as (_ & _ & Hshort).
  split; [exact H20|].
  split; [apply Hlong; vm_compute; reflexivity|].
  split; [apply Hshort; vm_compute; discriminate|].
  split; [exact (proj1 (Hrow eq_refl)) | exact (proj1 (Hrow' eq_refl))].
Defined.

Lemma formatNotificationLine_example :
  formatNotificationLine (fun _ s => s) String.length narrowModel longTitle 0
  = Some " 1 ● octo-organisation... issue      A title that is l...".
Proof. reflexivity. Qed.

(** ** The list window of the renderer *)

Lemma loopIndices_In (s e i : Z) : In i (loopIndices s e) <-> s <= i < e.
Proof.
  unfold loopIndices; rewrite in_map_iff; split.
  - intros (k & <- & Hk); apply in_seq in Hk; lia.
  - intros H; exists (Z.to_nat (i - s)); split; [lia|].
    apply in_seq; lia.
Qed.

Lemma mapM_total {A B : Type} (f : A -> option B) (l : list A) :
  (forall a, In a l -> exists b, f a = Some b) ->
  exists bs, mapM f l = Some bs.
Proof.
  induction l as [|a l IH]; intros H; simpl; [eexists; reflexivity|].
  destruct (H a (or_introl eq_refl)) as (b & ->).
  destruct IH as (bs & ->); [intros x Hx; apply H; right; exact Hx|].
  simpl; eexists; reflexivity.
Qed.

Lemma mapM_In {A B : Type} (f : A -> option B) (l : list A) (bs : list B)
  (a : A) (b : B) :
  mapM f l = Some bs -> In a l -> f a = Some b -> In b bs.
Proof.
  revert bs; induction l as [|x l IH]; intros bs HM Hin Hf; [contradiction|].
  simpl in HM.
  destruct (f x) as [y|] eqn:Ex; [|discriminate].
  destruct (mapM f l) as [ys|] eqn:El; [|discriminate].
  simpl in HM; injection HM as <-.
  destruct Hin as [->|Hin].
  - left; congruence.
  - right; exact (IH ys eq_refl Hin Hf).
Qed.

Lemma listWindow_closed_form (m : Model) :
  0 <= selectedIndex m <= len (notifications m) - 1 ->
  2 * len (notifications m) <= GoInt.max_int ->
  1 <= visibleHeight m ->
  listWindow m =
    if visibleHeight m <? len (notifications m) then
      (Z.min (Z.max 0 (selectedIndex m - visibleHeight m / 2))
             (len (notifications m) - visibleHeight m),
       Z.min (Z.max 0 (selectedIndex m - visibleHeight m / 2))
             (len (notifications m) - visibleHeight m) + visibleHeight m)
    else (0, len (notifications m)).
Proof.
  intros Hsel Hlen Hvh; unfold listWindow; cbv zeta.
  set (vh := visibleHeight m) in *.
  set (n := len (notifications m)) in *.
  set (sel := selectedIndex m) in *.
  rewrite Z.gtb_ltb.
  destruct (Z.ltb_spec vh n) as [Hlt|Hge]; [|reflexivity].
  assert (Hq : 0 <= vh / 2 /\ 2 * (vh / 2) <= vh).
  { pose proof (Z.div_mod vh 2 ltac:(lia)).
    pose proof (Z.mod_pos_bound vh 2 ltac:(lia)); lia. }
  unfold GoInt.quot; rewrite Z.quot_div_nonneg by lia.
  unfold GoInt.max_int, GoInt.min_int in *.
  rewrite (GoIntFacts.wrap_small (vh / 2))
    by (unfold GoInt.min_int, GoInt.max_int; lia).
  rewrite (GoIntFacts.sub_small sel)
    by (unfold GoInt.min_int, GoInt.max_int; lia).
  destruct (Z.ltb_spec (sel - vh / 2) 0) as [Hneg|Hpos].
  - rewrite GoIntFacts.add_small
      by (unfold GoInt.min_int, GoInt.max_int; lia).
    rewrite Z.gtb_ltb; destruct (Z.ltb_spec n (0 + vh)); [lia|].
    f_equal; lia.
  - rewrite GoIntFacts.add_small
      by (unfold GoInt.min_int, GoInt.max_int; lia).
    rewrite Z.gtb_ltb;
      destruct (Z.ltb_spec n (sel - vh / 2 + vh)) as [Hover|Hfit].
    + rewrite GoIntFacts.sub_small
        by (unfold GoInt.min_int, GoInt.max_int; lia).
      destruct (Z.ltb_spec (n - vh) 0); [lia|].
      f_equal; lia.
    + f_equal; lia.
Qed.

Lemma viewRow_some (Render : Style -> string -> string)
  (runes : string -> nat) (m : Model) (i : Z) :
  0 <= i < len (notifications m) ->
  exists n line,
    index (notifications m) i = Some n /\
    formatNotificationLine Render runes m n i = Some line /\
    viewRow Render runes m i =
      Some ((if i =? selectedIndex m then Render selectedStyle line else line)
            ++ nl).
Proof.
  intros Hi; destruct (index_in_range (notifications m) i Hi) as (n & Hn).
  destruct (formatNotificationLine_some Render runes m n i) as (line & Hl).
  exists n, line; unfold viewRow; rewrite Hn; simpl; rewrite Hl.
  repeat split.
Qed.

(** C5, as the specification words it, fails: on a terminal of eight rows
    or fewer no row is left for the list, the window is empty and the
    selected record is not rendered; on one of four rows the window starts
    beyond the length of the list. *)
Lemma window_without_rows :
  notifications lowTerminal <> [] /\
  0 <= selectedIndex lowTerminal <= len (notifications lowTerminal) - 1 /\
  listWindow lowTerminal = (4, 4) /\
  renderedIndices lowTerminal = [] /\
  ~ In (selectedIndex lowTerminal) (renderedIndices lowTerminal) /\
  viewRows (fun _ s => s) String.length lowTerminal = Some [] /\
  listWindow tinyTerminal = (6, 2) /\
  ~ (fst (listWindow tinyTerminal) <= len (notifications tinyTerminal)).
Proof.
  split; [discriminate|].
  split; [vm_compute; split; discriminate|].
  split; [reflexivity|].
  split; [reflexivity|].
  split; [intros H; exact H|].
  split; [reflexivity|].
  split; [reflexivity|].
  vm_compute; intros H; apply H; reflexivity.
Qed.

(** C5 (amended): for a state with items, a selection within
    [0, len(items)-1] and one available row or more (viewport height minus 8),
    the window of the renderer lies within [0, len(items)] and contains the
    selection; when the list exceeds the available rows the window has that
    many rows and is centred on the selection as far as the ends of the list
    allow; and the selected row is among the rendered rows. *)
Theorem window_contains_selection (Render : Style -> string -> string)
  (runes : string -> nat) (m : Model) :
  notifications m <> [] ->
  0 <= selectedIndex m <= len (notifications m) - 1 ->
  2 * len (notifications m) <= GoInt.max_int ->
  1 <= visibleHeight m ->
  exists startIdx endIdx,
    listWindow m = (startIdx, endIdx) /\
    0 <= startIdx <= selectedIndex m /\
    selectedIndex m < endIdx <= len (notifications m) /\
    (visibleHeight m < len (notifications m) ->
       endIdx = startIdx + visibleHeight m /\
       startIdx =
         Z.min (Z.max 0 (selectedIndex m - visibleHeight m / 2))
               (len (notifications m) - visibleHeight m)) /\
    In (selectedIndex m) (renderedIndices m) /\
    exists rows n line,
      viewRows Render runes m = Some rows /\
      index (notifications m) (selectedIndex m) = Some n /\
      formatNotificationLine Render runes m n (selectedIndex m) = Some line /\
      In (Render selectedStyle line ++ nl) rows.
Proof.
  intros _ Hsel Hlen Hvh.
  pose proof (listWindow_closed_form m Hsel Hlen Hvh) as HW.
  assert (Hq : 0 <= visibleHeight m / 2 /\
               2 * (visibleHeight m / 2) <= visibleHeight m).
  { pose proof (Z.div_mod (visibleHeight m) 2 ltac:(lia)).
    pose proof (Z.mod_pos_bound (visibleHeight m) 2 ltac:(lia)); lia. }
  destruct (listWindow m) as [s e] eqn:EW.
  assert (Hb : 0 <= s <= selectedIndex m /\
               selectedIndex m < e <= len (notifications m) /\
               (visibleHeight m < len (notifications m) ->
                  e = s + visibleHeight m /\
                  s = Z.min (Z.max 0 (selectedIndex m - visibleHeight m / 2))
                            (len (notifications m) - visibleHeight m))).
  { destruct (Z.ltb_spec (visibleHeight m) (len (notifications m)));
      injection HW as -> ->; lia. }
  destruct Hb as (Hs & He & Hc).
  assert (Hin : In (selectedIndex m) (renderedIndices m)).
  { unfold renderedIndices; rewrite EW; apply loopIndices_In; simpl; lia. }
  exists s, e; split; [reflexivity|].
  split; [exact Hs|]. split; [exact He|]. split; [exact Hc|].
  split; [exact Hin|].
  destruct (mapM_total (viewRow Render runes m) (renderedIndices m))
    as (rows & Hrows).
  { intros i Hi; unfold renderedIndices in Hi; rewrite EW in Hi.
    apply loopIndices_In in Hi; simpl in Hi.
    destruct (viewRow_some Render runes m i) as (n & line & _ & _ & ->);
      [lia | eexists; reflexivity]. }
  destruct (viewRow_some Render runes m (selectedIndex m))
    as (n & line & Hn & Hl & Hrow); [lia|].
  rewrite Z.eqb_refl in Hrow.
  exists rows, n, line; repeat split; try assumption.
  exact (mapM_In _ _ _ _ _ Hrows Hin Hrow).
Qed.

Lemma window_contains_selection_witness :
  listWindow scrolledModel = (2, 5) /\
  In 3 (renderedIndices scrolledModel) /\
  exists rows,
    viewRows (fun _ s => s) String.length scrolledModel = Some rows /\
    In (" 4 ● octo/repo            issue      Two again" ++ nl) rows.
Proof.
  destruct (window_contains_selection (fun _ s => s) String.length
              scrolledModel)
    as (s & e & HW & Hs & He & Hc & Hin & rows & n & line & Hr & Hn & Hl & Hrow).
  - discriminate.
  - vm_compute; split; discriminate.
  - vm_compute; discriminate.
  - vm_compute; discriminate.
  - split; [reflexivity|].
    split; [exact Hin|].
    exists rows; split; [exact Hr|].
    injection Hn as <-; injection Hl as <-; exact Hrow.
Defined.

Lemma loopIndices_empty (s e : Z) : e <= s -> loopIndices s e = [].
Proof.
  intros H; unfold loopIndices.
  replace (Z.to_nat (e - s)) with 0%nat by lia; reflexivity.
Qed.

Lemma quot2_nonpos (x : Z) : x <= 0 -> x <= 2 * Z.quot x 2 <= 0.
Proof.
  intros H; replace x with (- (- x)) at 2 3 by lia.
  rewrite Z.quot_opp_l, Z.quot_div_nonneg by lia.
  pose proof (Z.div_mod (- x) 2 ltac:(lia)).
  pose proof (Z.mod_pos_bound (- x) 2 ltac:(lia)); lia.
Qed.

(** X14: with no row left for the list (a viewport of eight rows or fewer)
    and a selection in range, the row loop does not run at all: no record is
    rendered. *)
Lemma no_room_no_rows (m : Model) :
  0 <= selectedIndex m <= len (notifications m) - 1 ->
  2 * len (notifications m) <= GoInt.max_int ->
  visibleHeight m <= 0 ->
  renderedIndices m = [].
Proof.
  intros Hsel Hlen Hvh; unfold renderedIndices, listWindow; cbv zeta.
  pose proof (GoIntFacts.wrap_range (terminalHeight m - 8)) as Hr.
  fold (GoInt.sub (terminalHeight m) 8) in Hr; fold (visibleHeight m) in Hr.
  set (vh := visibleHeight m) in *.
  set (n := len (notifications m)) in *.
  set (sel := selectedIndex m) in *.
  unfold GoInt.min_int, GoInt.max_int in *.
  pose proof (quot2_nonpos vh Hvh) as Hq.
  rewrite Z.gtb_ltb; destruct (Z.ltb_spec vh n) as [_|Hge]; [|lia].
  unfold GoInt.quot; rewrite (GoIntFacts.wrap_small (Z.quot vh 2))
    by (unfold GoInt.min_int, GoInt.max_int; lia).
  rewrite (GoIntFacts.sub_small sel)
    by (unfold GoInt.min_int, GoInt.max_int; lia).
  destruct (Z.ltb_spec (sel - Z.quot vh 2) 0); [lia|].
  rewrite GoIntFacts.add_small
    by (unfold GoInt.min_int, GoInt.max_int; lia).
  rewrite Z.gtb_ltb; destruct (Z.ltb_spec n (sel - Z.quot vh 2 + vh)); [lia|].
  apply loopIndices_empty; simpl; lia.
Qed.

(** ** The key handler, case by case *)

Lemma handleKeyPress_cases (m : Model) (key : string) :
  handleKeyPress m key =
    match keyCase key with
    | caseQuit => Some (m, Quit)
    | caseUp => Some (moveUp m, nilCmd)
    | caseDown => Some (moveDown m, nilCmd)
    | caseEnter =>
        if len (notifications m) >? 0 then
          notification <- index (notifications m) (selectedIndex m) ;;
          Some (m, openInBrowserCmd notification)
        else Some (m, nilCmd)
    | caseMarkRead =>
        if len (notifications m) >? 0 then
          notification <- index (notifications m) (selectedIndex m) ;;
          Some (m, markAsReadCmd (ID notification))
        else Some (m, nilCmd)
    | caseRefresh => Some (startRefresh m, fetchNotificationsCmd)
    | caseTab =>
        Some (with_statusMessage "Summary view coming soon..." m, nilCmd)
    | caseUnbound => Some (m, nilCmd)
    end.
Proof.
  unfold handleKeyPress, keyCase.
  destruct ((key =? "q")%string || (key =? "ctrl+c")%string); [reflexivity|].
  destruct ((key =? "up")%string || (key =? "k")%string); [reflexivity|].
  destruct ((key =? "down")%string || (key =? "j")%string); [reflexivity|].
  destruct (key =? "enter")%string; [reflexivity|].
  destruct (key =? "r")%string; [reflexivity|].
  destruct ((key =? "f")%string || (key =? "F5")%string); [reflexivity|].
  destruct (key =? "tab")%string; reflexivity.
Qed.

Lemma keyCase_spec (key : string) :
  match keyCase key with
  | caseQuit => key = "q" \/ key = "ctrl+c"
  | caseUp => key = "up" \/ key = "k"
  | caseDown => key = "down" \/ key = "j"
  | caseEnter => key = "enter"
  | caseMarkRead => key = "r"
  | caseRefresh => key = "f" \/ key = "F5"
  | caseTab => key = "tab"
  | caseUnbound =>
      ~ In key ["q"; "ctrl+c"; "up"; "k"; "down"; "j"; "enter"; "r"; "f";
                "F5"; "tab"]
  end.
Proof.
  unfold keyCase.
  destruct (String.eqb_spec key "q"); [left; assumption|].
  destruct (String.eqb_spec key "ctrl+c"); [right; assumption|].
  destruct (String.eqb_spec key "up"); [left; assumption|].
  destruct (String.eqb_spec key "k"); [right; assumption|].
  destruct (String.eqb_spec key "down"); [left; assumption|].
  destruct (String.eqb_spec key "j"); [right; assumption|].
  destruct (String.eqb_spec key "enter"); [assumption|].
  destruct (String.eqb_spec key "r"); [assumption|].
  destruct (String.eqb_spec key "f"); [left; assumption|].
  destruct (String.eqb_spec key "F5"); [right; assumption|].
  destruct (String.eqb_spec key "tab"); [assumption|].
  simpl; intuition congruence.
Qed.

Lemma index_cursor (m : Model) :
  0 <= selectedIndex m <= len (notifications m) - 1 ->
  exists n, index (notifications m) (selectedIndex m) = Some n.
Proof. intros H; apply index_in_range; lia. Qed.

Lemma cursor_nonempty (m : Model) :
  cursor_ok m -> notifications m <> [] ->
  0 <= selectedIndex m <= len (notifications m) - 1.
Proof. intros [[H _]|H] Hne; [contradiction | exact H]. Qed.

Lemma len_pos_iff {A : Type} (l : list A) : (len l >? 0) = true <-> l <> [].
Proof.
  rewrite Z.gtb_ltb, Z.ltb_lt; unfold len; destruct l; simpl; split;
    intros H; try congruence; try lia.
Qed.

(** A key press that returns leaves the list, the error, the viewport and
    the summary fields as they were. *)
Lemma handleKeyPress_frame (m : Model) (key : string) (m' : Model)
  (c : Cmd) :
  handleKeyPress m key = Some (m', c) ->
  notifications m' = notifications m /\
  err m' = err m /\
  terminalWidth m' = terminalWidth m /\
  terminalHeight m' = terminalHeight m /\
  showingSummary m' = showingSummary m /\
  summaryContent m' = summaryContent m.
Proof.
  rewrite handleKeyPress_cases; unfold moveUp, moveDown, startRefresh.
  destruct (keyCase key); intros H.
  - injection H as <- _; repeat split.
  - injection H as <- _.
    destruct (selectedIndex m >? 0); repeat split.
  - injection H as <- _.
    destruct (selectedIndex m <? GoInt.sub (len (notifications m)) 1);
      repeat split.
  - destruct (len (notifications m) >? 0);
      [destruct (index (notifications m) (selectedIndex m));
         [|discriminate]|];
      simpl in H; injection H as <- _; repeat split.
  - destruct (len (notifications m) >? 0);
      [destruct (index (notifications m) (selectedIndex m));
         [|discriminate]|];
      simpl in H; injection H as <- _; repeat split.
  - injection H as <- _; repeat split.
  - injection H as <- _; repeat split.
  - injection H as <- _; repeat split.
Qed.

Lemma handleKeyPress_command_of_case (m : Model) (key : string)
  (m' : Model) (c : Cmd) :
  handleKeyPress m key = Some (m', c) ->
  match keyCase key with
  | caseQuit => c = Quit
  | caseRefresh => c = fetchNotificationsCmd
  | caseEnter => c = nilCmd \/ exists n, c = openInBrowserCmd n
  | caseMarkRead => c = nilCmd \/ exists id, c = markAsReadCmd id
  | _ => c = nilCmd
  end.
Proof.
  rewrite handleKeyPress_cases.
  destruct (keyCase key); intros H;
    try (injection H as _ <-; reflexivity);
    (destruct (len (notifications m) >? 0);
       [destruct (index (notifications m) (selectedIndex m));
          [|discriminate]|]);
    simpl in H; injection H as _ <-; eauto.
Qed.

Ltac split_keys :=
  repeat match goal with
         | H : _ \/ _ |- _ => destruct H
         | H : ex _ |- _ => destruct H
         end;
  subst; try discriminate; try congruence.

(** X9: which key emits which command.  The program quits on [q] and
    [ctrl+c] only, starts a fetch on [f] and [F5] only, asks for a mark-read
    on [r] only and opens the browser on [enter] only. *)
Theorem handleKeyPress_commands (m : Model) (key : string) (m' : Model)
  (c : Cmd) :
  handleKeyPress m key = Some (m', c) ->
  (c = Quit <-> key = "q" \/ key = "ctrl+c") /\
  (c = fetchNotificationsCmd <-> key = "f" \/ key = "F5") /\
  ((exists id, c = markAsReadCmd id) -> key = "r") /\
  ((exists n, c = openInBrowserCmd n) -> key = "enter").
Proof.
  intros H.
  pose proof (handleKeyPress_command_of_case m key m' c H) as Hc.
  pose proof (keyCase_spec key) as Hk.
  destruct (keyCase key); repeat split; intros; split_keys; auto;
    exfalso; apply Hk; simpl; tauto.
Qed.

Lemma handleKeyPress_commands_witness :
  handleKeyPress fiveModel "ctrl+c" = Some (fiveModel, Quit) /\
  (Quit = Quit <-> "ctrl+c" = "q" \/ "ctrl+c" = "ctrl+c").
Proof.
  split; [reflexivity|].
  exact (proj1 (handleKeyPress_commands fiveModel "ctrl+c" fiveModel Quit
                  eq_refl)).
Defined.

(** X10: a message that is not a key press never emits a command: the result
    of a fetch, of a mark-read or of an open, a resize and every foreign
    message are absorbed without follow-up work. *)
Theorem Update_results_emit_nothing (m : Model) (msg : Msg) (m' : Model)
  (c : Cmd) :
  is_key msg = false ->
  Update m msg = Some (m', c) ->
  c = nilCmd.
Proof.
  intros Hk H; destruct msg; try discriminate Hk; simpl in H;
    try (injection H as _ <-; reflexivity).
  destruct (markedLoop id (notifications m) 0 m); [|discriminate].
  simpl in H; injection H as _ <-; reflexivity.
Qed.

Lemma Update_results_emit_nothing_witness :
  exists m' c,
    Update refreshingModel (markAsReadCmd_msg "7" None) = Some (m', c) /\
    c = nilCmd.
Proof.
  eexists; eexists; split; [reflexivity|].
  exact (Update_results_emit_nothing refreshingModel
           (markAsReadCmd_msg "7" None) _ _ eq_refl eq_refl).
Defined.

(** ** What each message may change *)

Lemma removeAt_frame (m : Model) (i : Z) (m' : Model) :
  removeAt m i = Some m' ->
  loading m' = loading m /\ err m' = err m /\
  statusMessage m' = statusMessage m /\
  terminalWidth m' = terminalWidth m /\
  terminalHeight m' = terminalHeight m /\
  showingSummary m' = showingSummary m /\
  summaryContent m' = summaryContent m.
Proof.
  unfold removeAt.
  destruct (slice_to (notifications m) i) as [pre|]; [|discriminate].
  destruct (slice_from (notifications m) (GoInt.add i 1)) as [post|];
    [|discriminate].
  cbn [bind]; intros H; injection H as <-.
  repeat match goal with
         | |- context [if ?b then _ else _] => destruct b
         end; repeat split.
Qed.

Lemma markedLoop_frame (id : string) (rng : list Notification) (i : Z)
  (m m' : Model) :
  markedLoop id rng i m = Some m' ->
  loading m' = loading m /\ err m' = err m /\
  statusMessage m' = statusMessage m /\
  terminalWidth m' = terminalWidth m /\
  terminalHeight m' = terminalHeight m /\
  showingSummary m' = showingSummary m /\
  summaryContent m' = summaryContent m.
Proof.
  revert i; induction rng as [|n rest IH]; intros i H; simpl in H.
  - injection H as <-; repeat split.
  - destruct (ID n =? id)%string; [exact (removeAt_frame _ _ _ H)|].
    exact (IH _ H).
Qed.

Lemma handleKeyPress_keeps_loading (m : Model) (key : string) (m' : Model)
  (c : Cmd) :
  handleKeyPress m key = Some (m', c) ->
  loading m = true -> loading m' = true.
Proof.
  rewrite handleKeyPress_cases; unfold moveUp, moveDown, startRefresh.
  destruct (keyCase key); intros H Hl;
    try (destruct (len (notifications m) >? 0);
         [destruct (index (notifications m) (selectedIndex m));
            [|discriminate]|]; simpl in H);
    injection H as <- _;
    repeat match goal with
           | |- context [if ?b then _ else _] => destruct b
           end; simpl; first [exact Hl | reflexivity].
Qed.

(** X11: what a transition may change.  The list changes only on a
    completed fetch or a completed mark-read, the selection only on a key
    press or a completed mark-read, the viewport only on a resize, the error
    only on a completed fetch or an error message, and the summary fields
    never; and [loading], once set, stays set until a fetch completes or an
    error arrives. *)
Theorem Update_frame (m : Model) (msg : Msg) (m' : Model) (c : Cmd) :
  Update m msg = Some (m', c) ->
  (is_loaded msg = false -> is_marked msg = false ->
     notifications m' = notifications m) /\
  (is_key msg = false -> is_marked msg = false ->
     selectedIndex m' = selectedIndex m) /\
  (is_resize msg = false ->
     terminalWidth m' = terminalWidth m /\
     terminalHeight m' = terminalHeight m) /\
  (is_loaded msg = false -> is_error msg = false -> err m' = err m) /\
  (is_loaded msg = false -> is_error msg = false ->
     loading m = true -> loading m' = true) /\
  showingSummary m' = showingSummary m /\
  summaryContent m' = summaryContent m.
Proof.
  destruct msg; simpl; intros H.
  - injection H as <- _; repeat split; intros;
      first [assumption | discriminate].
  - pose proof (handleKeyPress_keeps_loading _ _ _ _ H) as Hl.
    destruct (handleKeyPress_frame _ _ _ _ H) as (Hn & He & Hw & Hh & Hs & Hc).
    repeat split; intros; first [assumption | discriminate | auto].
  - injection H as <- _.
    destruct (len ns =? 0); repeat split; intros; discriminate.
  - destruct (markedLoop id (notifications m) 0 m) as [m1|] eqn:E;
      [|discriminate].
    simpl in H; injection H as <- _.
    destruct (markedLoop_frame _ _ _ _ _ E)
      as (Hl & He & _ & Hw & Hh & Hs & Hc).
    repeat split; intros; simpl;
      first [assumption | discriminate | congruence].
  - injection H as <- _; repeat split; intros; discriminate.
  - injection H as <- _; repeat split; intros; assumption.
  - injection H as <- _; repeat split; intros; assumption.
Qed.

Lemma Update_frame_witness :
  exists m',
    Update refreshingModel (openInBrowserCmd_msg None) = Some (m', nilCmd) /\
    notifications m' = [issue42] /\
    terminalWidth m' = 80 /\ terminalHeight m' = 24 /\
    err m' = None.
Proof.
  eexists; split; [reflexivity|].
  destruct (Update_frame refreshingModel (openInBrowserCmd_msg None) _ _
              eq_refl) as (Hn & _ & Hv & He & _).
  split; [exact (Hn eq_refl eq_refl)|].
  split; [exact (proj1 (Hv eq_refl))|].
  split; [exact (proj2 (Hv eq_refl)) | exact (He eq_refl eq_refl)].
Defined.

(** ** The cursor invariant along a run *)

Lemma handleKeyPress_cursor (m : Model) (key : string) :
  len (notifications m) <= GoInt.max_int ->
  cursor_ok m ->
  exists m' c,
    handleKeyPress m key = Some (m', c) /\
    cursor_ok m' /\ notifications m' = notifications m.
Proof.
  intros Hlen Hc; rewrite handleKeyPress_cases.
  destruct (keyCase key).
  - exists m, Quit; repeat split; assumption.
  - exists (moveUp m), nilCmd; split; [reflexivity|].
    apply moveUp_cursor; assumption.
  - exists (moveDown m), nilCmd; split; [reflexivity|].
    apply moveDown_cursor; assumption.
  - destruct (len (notifications m) >? 0) eqn:E.
    + apply len_pos_iff in E.
      destruct (index_cursor m (cursor_nonempty m Hc E)) as (n & ->).
      exists m, (openInBrowserCmd n); repeat split; assumption.
    + exists m, nilCmd; repeat split; assumption.
  - destruct (len (notifications m) >? 0) eqn:E.
    + apply len_pos_iff in E.
      destruct (index_cursor m (cursor_nonempty m Hc E)) as (n & ->).
      exists m, (markAsReadCmd (ID n)); repeat split; assumption.
    + exists m, nilCmd; repeat split; assumption.
  - exists (startRefresh m), fetchNotificationsCmd; repeat split; assumption.
  - eexists; exists nilCmd; repeat split; assumption.
  - exists m, nilCmd; repeat split; assumption.
Qed.

Lemma marked_cursor (m : Model) (id : string) :
  len (notifications m) <= GoInt.max_int ->
  cursor_ok m ->
  exists m',
    Update m (notificationMarkedMsg id) = Some (m', nilCmd) /\
    cursor_ok m' /\ len (notifications m') <= len (notifications m).
Proof.
  intros Hlen Hc; rewrite (Update_marked m id Hlen).
  eexists; split; [reflexivity|].
  destruct (has_id id (notifications m)) eqn:E; simpl.
  - rewrite (len_remove_first _ _ E); split; [|lia].
    assert (Hsel : 0 <= selectedIndex m)
      by (destruct Hc as [[_ H0]|Hr]; lia).
    pose proof (len_nonneg (remove_first id (notifications m))) as Hn.
    rewrite (len_remove_first _ _ E) in Hn.
    destruct (reclamp_in_range _ (selectedIndex m) Hn Hsel) as [[H0 H1]|H].
    + left; simpl; split; [|exact H1].
      apply len_zero_nil; rewrite (len_remove_first _ _ E); exact H0.
    + right; simpl; rewrite (len_remove_first _ _ E); exact H.
  - split; [exact Hc | lia].
Qed.

Lemma run_non_fetch_cursor (msgs : list Msg) (m : Model) :
  len (notifications m) <= GoInt.max_int ->
  cursor_ok m ->
  forallb (fun msg => negb (is_loaded msg)) msgs = true ->
  exists m',
    run m msgs = Some m' /\
    cursor_ok m' /\
    len (notifications m') <= len (notifications m).
Proof.
  revert m; induction msgs as [|msg msgs IH]; intros m Hlen Hc Hm.
  - exists m; repeat split; [assumption | lia].
  - simpl in Hm; apply andb_true_iff in Hm as [Hmsg Hmsgs].
    assert (Hstep : exists m1 c,
      Update m msg = Some (m1, c) /\ cursor_ok m1 /\
      len (notifications m1) <= len (notifications m)).
    { destruct msg; try discriminate Hmsg; simpl.
      - eexists; eexists; split; [reflexivity|]; split; [exact Hc | simpl; lia].
      - destruct (handleKeyPress_cursor m key Hlen Hc) as (m1 & c & H & H1 & Hn).
        exists m1, c; rewrite Hn; repeat split; try assumption; lia.
      - destruct (marked_cursor m id Hlen Hc) as (m1 & H & H1 & Hn).
        exists m1, nilCmd; repeat split; assumption.
      - eexists; eexists; split; [reflexivity|]; split; [exact Hc | simpl; lia].
      - eexists; eexists; split; [reflexivity|]; split; [exact Hc | simpl; lia].
      - eexists; eexists; split; [reflexivity|]; split; [exact Hc | lia]. }
    destruct Hstep as (m1 & c & HU & Hc1 & Hn1).
    destruct (IH m1) as (m' & Hrun & Hc' & Hn'); try assumption; [lia|].
    exists m'; simpl; rewrite HU; repeat split; try assumption; lia.
Qed.

(** X5: every message but a completed fetch is processed without failure
    from a state that satisfies the cursor invariant, keeps the invariant and
    never makes the list longer; so does every sequence of such messages. *)
Theorem run_keeps_cursor (msgs : list Msg) (m : Model) :
  len (notifications m) <= GoInt.max_int ->
  cursor_ok m ->
  forallb (fun msg => negb (is_loaded msg)) msgs = true ->
  exists m',
    run m msgs = Some m' /\
    cursor_ok m' /\
    len (notifications m') <= len (notifications m).
Proof. exact (run_non_fetch_cursor msgs m). Qed.

Lemma run_keeps_cursor_witness :
  exists m',
    run fiveModel
      [KeyMsg "r"; notificationMarkedMsg "e"; KeyMsg "enter";
       errorMsg "failed to open in browser: exit status 1";
       WindowSizeMsg 100 30; KeyMsg "up"; notificationMarkedMsg "b";
       statusMsg "Opened in browser"; KeyMsg "tab"; otherMsg]
      = Some m' /\
    cursor_ok m' /\
    len (notifications m') <= len (notifications fiveModel).
Proof.
  apply run_keeps_cursor.
  - vm_compute; discriminate.
  - right; vm_compute; split; discriminate.
  - reflexivity.
Defined.

(** ** The renderer never fails *)

(** Whatever the state, the window starts at 0 or later and ends at the
    length of the list or earlier. *)
Lemma listWindow_within (m : Model) :
  0 <= fst (listWindow m) /\ snd (listWindow m) <= len (notifications m).
Proof.
  unfold listWindow; cbv zeta.
  pose proof (len_nonneg (notifications m)) as Hn.
  rewrite !Z.gtb_ltb.
  destruct (Z.ltb_spec (visibleHeight m) (len (notifications m)));
    [|simpl; lia].
  set (s0 := GoInt.sub (selectedIndex m)
               (GoInt.quot (visibleHeight m) 2)).
  set (s1 := if s0 <? 0 then 0 else s0).
  assert (Hs1 : 0 <= s1) by (unfold s1; destruct (Z.ltb_spec s0 0); lia).
  destruct (Z.ltb_spec (len (notifications m))
              (GoInt.add s1 (visibleHeight m))); simpl; [|lia].
  destruct (Z.ltb_spec
              (GoInt.sub (len (notifications m)) (visibleHeight m)) 0); lia.
Qed.

Lemma viewRows_some (Render : Style -> string -> string)
  (runes : string -> nat) (m : Model) :
  exists rows,
    viewRows Render runes m = Some rows /\
    List.length rows = List.length (renderedIndices m).
Proof.
  destruct (listWindow_within m) as [Hs He].
  assert (H : forall l, (forall i, In i l -> 0 <= i < len (notifications m)) ->
            exists rows, mapM (viewRow Render runes m) l = Some rows /\
                         List.length rows = List.length l).
  { induction l as [|i l IH]; intros Hl; simpl; [exists []; split; reflexivity|].
    destruct (viewRow_some Render runes m i (Hl i (or_introl eq_refl)))
      as (n & line & _ & _ & ->).
    destruct IH as (rows & -> & Hlen); [intros j Hj; apply Hl; right; exact Hj|].
    simpl; eexists; split; [reflexivity | simpl; rewrite Hlen; reflexivity]. }
  apply H; intros i Hi.
  unfold renderedIndices in Hi; apply loopIndices_In in Hi; lia.
Qed.

(** X2: the renderer never fails.  For every state, whatever the
    selection, the viewport and the list, [View] returns a frame: the row
    loop only reads positions of the list, and no slice leaves its string. *)
Theorem View_total (Render : Style -> string -> string)
  (runes : string -> nat) (m : Model) :
  exists frame, View Render runes m = Some frame.
Proof.
  unfold View.
  destruct (loading m); [eexists; reflexivity|].
  destruct (err m); [eexists; reflexivity|].
  destruct (len (notifications m) >? 0); [|eexists; reflexivity].
  destruct (viewRows_some Render runes m) as (rows & -> & _).
  eexists; reflexivity.
Qed.

(** While loading the frame is the loading frame; otherwise, with an error
    set, it is the error frame. *)
Lemma View_priority (Render : Style -> string -> string)
  (runes : string -> nat) (m : Model) (e : string) :
  err m = Some e ->
  View Render runes m =
    Some (if loading m then loadingFrame Render else errorFrame Render e).
Proof. unfold View; intros ->; destruct (loading m); reflexivity. Qed.

Lemma Update_keeps_error (m : Model) (msg : Msg) (m' : Model) (c : Cmd)
  (e : string) :
  is_loaded msg = false ->
  err m = Some e ->
  Update m msg = Some (m', c) ->
  exists e', err m' = Some e'.
Proof.
  intros Hl He H; destruct msg; try discriminate Hl; simpl in H.
  - injection H as <- _; exists e; exact He.
  - destruct (handleKeyPress_frame _ _ _ _ H) as (_ & -> & _).
    exists e; exact He.
  - destruct (markedLoop id (notifications m) 0 m) as [m1|] eqn:E;
      [|discriminate].
    simpl in H; injection H as <- _.
    destruct (markedLoop_frame _ _ _ _ _ E) as (_ & Herr & _).
    exists e; simpl; rewrite Herr; exact He.
  - injection H as <- _; eexists; reflexivity.
  - injection H as <- _; exists e; exact He.
  - injection H as <- _; exists e; exact He.
Qed.

(** X3: an error stays on screen until a fetch completes.  Once the error
    is set, no sequence of key presses, resizes, mark-read or open results
    clears it, so the renderer shows the loading frame or an error frame and
    never the rows of the list. *)
Theorem error_frame_until_fetch (Render : Style -> string -> string)
  (runes : string -> nat) (msgs : list Msg) (m m' : Model) (e : string) :
  err m = Some e ->
  forallb (fun msg => negb (is_loaded msg)) msgs = true ->
  run m msgs = Some m' ->
  exists e',
    err m' = Some e' /\
    View Render runes m' =
      Some (if loading m' then loadingFrame Render
            else errorFrame Render e').
Proof.
  revert m e; induction msgs as [|msg msgs IH]; intros m e He Hm Hrun.
  - simpl in Hrun; injection Hrun as <-.
    exists e; split; [exact He | apply View_priority, He].
  - simpl in Hm, Hrun; apply andb_true_iff in Hm as [Hmsg Hmsgs].
    destruct (Update m msg) as [[m1 c]|] eqn:HU; [|discriminate].
    apply negb_true_iff in Hmsg.
    destruct (Update_keeps_error m msg m1 c e Hmsg He HU) as (e1 & He1).
    exact (IH m1 e1 He1 Hmsgs Hrun).
Qed.

Lemma error_frame_until_fetch_witness :
  exists m' e',
    run fiveModel
      [errorMsg "failed to mark as read: exit status 1"; KeyMsg "up";
       notificationMarkedMsg "a"; statusMsg "Opened in browser";
       WindowSizeMsg 120 40] = Some m' /\
    err m' = Some e' /\
    View (fun _ s => s) String.length m' =
      Some (errorFrame (fun _ s => s) e').
Proof.
  eexists; eexists; split; [reflexivity|].
  destruct (error_frame_until_fetch (fun _ s => s) String.length
              [KeyMsg "up"; notificationMarkedMsg "a";
               statusMsg "Opened in browser"; WindowSizeMsg 120 40]
              (afterError "failed to mark as read: exit status 1" fiveModel)
              _ "failed to mark as read: exit status 1"
              eq_refl eq_refl eq_refl) as (e' & He' & HV).
  injection He' as <-; split; [reflexivity | exact HV].
Defined.

(** ** A fetch does not reset the selection *)

Lemma index_beyond {A : Type} (l : list A) (i : Z) :
  len l <= i -> index l i = None.
Proof.
  intros H; unfold index.
  destruct (Z.ltb_spec i (len l)); [lia|].
  rewrite andb_false_r; reflexivity.
Qed.

(** X4: a completed fetch leaves the selection where it was.  When the
    fetched list is not empty and not longer than the old selection, the
    selection is out of range afterwards, and the next [enter] or [r] reads
    the list out of bounds and panics. *)
Theorem stale_selection_panics (m : Model) (ns : list Notification) :
  ns <> [] ->
  len ns <= selectedIndex m ->
  exists m',
    Update m (notificationsLoadedMsg ns) = Some (m', nilCmd) /\
    notifications m' = ns /\
    selectedIndex m' = selectedIndex m /\
    ~ cursor_ok m' /\
    Update m' (KeyMsg "enter") = None /\
    Update m' (KeyMsg "r") = None.
Proof.
  intros Hne Hsel; eexists; split; [reflexivity|].
  assert (E : (len ns =? 0) = false).
  { destruct (len ns =? 0) eqn:E; [|reflexivity].
    apply len_zero_iff in E; contradiction. }
  assert (Hpos : (len ns >? 0) = true) by (apply len_pos_iff; exact Hne).
  simpl; rewrite E; simpl.
  split; [reflexivity|]. split; [reflexivity|].
  split.
  - unfold cursor_ok; simpl; intros [[Hnil _]|Hr]; [contradiction | lia].
  - rewrite !handleKeyPress_cases; simpl.
    rewrite Hpos, (index_beyond ns _ Hsel); split; reflexivity.
Qed.

Lemma stale_selection_panics_witness :
  run initialModel
    [notificationsLoadedMsg fiveItems; KeyMsg "down"; KeyMsg "down";
     KeyMsg "down"; KeyMsg "down"; KeyMsg "f"] =
    Some (startRefresh fiveModel) /\
  exists m',
    Update (startRefresh fiveModel) (notificationsLoadedMsg [issue42; pull42])
      = Some (m', nilCmd) /\
    selectedIndex m' = 4 /\
    Update m' (KeyMsg "enter") = None.
Proof.
  split; [reflexivity|].
  destruct (stale_selection_panics (startRefresh fiveModel) [issue42; pull42])
    as (m' & HU & _ & Hs & _ & Henter & _).
  - discriminate.
  - vm_compute; discriminate.
  - exists m'; split; [exact HU|]. split; [exact Hs | exact Henter].
Defined.

(** ** Marking the selected record *)

Lemma index_split {A : Type} (l : list A) (i : Z) (a : A) :
  index l i = Some a ->
  exists pre post, l = (pre ++ a :: post)%list /\ len pre = i.
Proof.
  unfold index.
  destruct (Z.leb_spec 0 i) as [H0|H0]; [|discriminate].
  destruct (Z.ltb_spec i (len l)) as [H1|H1]; [|discriminate].
  simpl; intros H.
  destruct (nth_error_split _ _ H) as (pre & post & Hl & Hlen).
  exists pre, post; split; [exact Hl | unfold len; lia].
Qed.

Lemma NoDup_ids_before (id : string) (pre : list Notification)
  (n : Notification) (post : list Notification) :
  NoDup (map ID (pre ++ n :: post)%list) -> ID n = id ->
  has_id id pre = false /\ has_id id post = false.
Proof.
  intros Hnd Hid; rewrite map_app in Hnd; simpl in Hnd.
  pose proof (NoDup_remove_2 _ _ _ Hnd) as Hnot.
  split; apply has_id_false; intros x Hx Hxid; apply Hnot, in_or_app;
    [left | right]; rewrite Hid, <- Hxid; apply in_map; exact Hx.
Qed.

(** X7: marking the selected record, end to end.  With distinct ids and a
    selection in range, [r] asks for a mark-read of the selected record, and
    once the gateway confirms it the reducer removes that very record and no
    other; the selection keeps its position, or moves to the new last record
    when the removed one was last. *)
Theorem mark_selected_round_trip (m : Model) :
  len (notifications m) <= GoInt.max_int ->
  0 <= selectedIndex m <= len (notifications m) - 1 ->
  NoDup (map ID (notifications m)) ->
  exists n pre post m',
    notifications m = (pre ++ n :: post)%list /\
    len pre = selectedIndex m /\
    Update m (KeyMsg "r") = Some (m, markAsReadCmd (ID n)) /\
    Update m (markAsReadCmd_msg (ID n) None) = Some (m', nilCmd) /\
    notifications m' = (pre ++ post)%list /\
    has_id (ID n) (notifications m') = false /\
    selectedIndex m' =
      match post with
      | [] => Z.max 0 (selectedIndex m - 1)
      | _ :: _ => selectedIndex m
      end.
Proof.
  intros Hlen Hsel Hnd.
  destruct (index_cursor m Hsel) as (n & Hn).
  destruct (index_split _ _ _ Hn) as (pre & post & Hl & Hpre).
  exists n, pre, post.
  rewrite Hl in Hnd.
  destruct (NoDup_ids_before (ID n) pre n post Hnd eq_refl) as [Hb Ha].
  assert (Hpos : (len (notifications m) >? 0) = true)
    by (apply Z.gtb_lt; lia).
  eexists; split; [exact Hl|]. split; [exact Hpre|].
  split; [simpl; rewrite handleKeyPress_cases; simpl; rewrite Hpos, Hn;
          reflexivity|].
  simpl markAsReadCmd_msg; rewrite (Update_marked m (ID n) Hlen).
  assert (E : has_id (ID n) (notifications m) = true).
  { apply (has_id_In _ _ n); [rewrite Hl; apply in_elt | reflexivity]. }
  rewrite E, Hl, (remove_first_split _ _ _ _ Hb eq_refl).
  split; [reflexivity|]; simpl.
  split; [reflexivity|].
  split.
  - unfold has_id in *; rewrite existsb_app, Hb, Ha; reflexivity.
  - rewrite Hl, len_app, len_cons in Hsel.
    pose proof (len_nonneg pre); pose proof (len_nonneg post).
    assert (Hr : forall k, 0 <= k ->
              reclamp (len pre + k) (selectedIndex m) =
                if k =? 0 then Z.max 0 (selectedIndex m - 1)
                else selectedIndex m).
    { intros k Hk; unfold reclamp; rewrite Z.geb_leb.
      destruct (Z.eqb_spec (len pre + k) 0), (Z.eqb_spec k 0),
        (Z.leb_spec (len pre + k) (selectedIndex m)); lia. }
    rewrite len_app, (Hr _ (len_nonneg post)).
    destruct post as [|p post]; [reflexivity|].
    rewrite len_cons; pose proof (len_nonneg post).
    destruct (Z.eqb_spec (len post + 1) 0); [lia | reflexivity].
Qed.

Lemma mark_selected_round_trip_witness :
  exists m',
    Update threeModel (KeyMsg "r") = Some (threeModel, markAsReadCmd "8") /\
    Update threeModel (markAsReadCmd_msg "8" None) = Some (m', nilCmd) /\
    notifications m' = [issue42; noSegment] /\
    selectedIndex m' = 1.
Proof.
  destruct (mark_selected_round_trip threeModel)
    as (n & pre & post & m' & Hl & Hpre & Hr & HU & Hn & _ & Hs).
  - vm_compute; discriminate.
  - vm_compute; split; discriminate.
  - repeat constructor; simpl; intuition discriminate.
  - destruct pre as [|x [|y pre]].
    + vm_compute in Hpre; discriminate.
    + injection Hl as <- <- <-.
      exists m'; split; [exact Hr|]. split; [exact HU|].
      split; [exact Hn | exact Hs].
    + exfalso; unfold len in Hpre; simpl in Hpre; lia.
Defined.

(** ** Holding a navigation key *)

Lemma moveDown_selection (m : Model) :
  len (notifications m) <= GoInt.max_int ->
  0 <= selectedIndex m <= len (notifications m) - 1 ->
  selectedIndex (moveDown m) =
    Z.min (selectedIndex m + 1) (len (notifications m) - 1).
Proof.
  intros Hlen Hsel; unfold moveDown.
  rewrite GoIntFacts.sub_small
    by (unfold GoInt.min_int, GoInt.max_int in *; lia).
  destruct (Z.ltb_spec (selectedIndex m) (len (notifications m) - 1));
    simpl; [|lia].
  rewrite GoIntFacts.add_small
    by (unfold GoInt.min_int, GoInt.max_int in *; lia).
  lia.
Qed.

Lemma moveUp_selection (m : Model) :
  len (notifications m) <= GoInt.max_int ->
  0 <= selectedIndex m <= len (notifications m) - 1 ->
  selectedIndex (moveUp m) = Z.max (selectedIndex m - 1) 0.
Proof.
  intros Hlen Hsel; unfold moveUp; rewrite Z.gtb_ltb.
  destruct (Z.ltb_spec 0 (selectedIndex m)); simpl; [|lia].
  rewrite GoIntFacts.sub_small
    by (unfold GoInt.min_int, GoInt.max_int in *; lia).
  lia.
Qed.

(** X8: the selection saturates at both ends.  From a selection in range,
    [k] presses of a down key move it to [min (sel + k) (len - 1)] and [k]
    presses of an up key to [max (sel - k) 0]; the list is untouched. *)
Theorem repeated_navigation (k : nat) (m : Model) :
  len (notifications m) <= GoInt.max_int ->
  0 <= selectedIndex m <= len (notifications m) - 1 ->
  (exists m',
     run m (repeat (KeyMsg "down") k) = Some m' /\
     notifications m' = notifications m /\
     selectedIndex m' =
       Z.min (selectedIndex m + Z.of_nat k) (len (notifications m) - 1)) /\
  (exists m',
     run m (repeat (KeyMsg "up") k) = Some m' /\
     notifications m' = notifications m /\
     selectedIndex m' = Z.max (selectedIndex m - Z.of_nat k) 0).
Proof.
  revert m; induction k as [|k IH]; intros m Hlen Hsel.
  - split; exists m; simpl; repeat split; lia.
  - assert (Hc : cursor_ok m) by (right; exact Hsel).
    destruct (moveDown_cursor m Hlen Hc) as [Hcd Hnd].
    destruct (moveUp_cursor m Hlen Hc) as [Hcu Hnu].
    pose proof (moveDown_selection m Hlen Hsel) as Hsd.
    pose proof (moveUp_selection m Hlen Hsel) as Hsu.
    split.
    + destruct (IH (moveDown m)) as [(m' & Hrun & Hn & Hs) _];
        [rewrite Hnd; exact Hlen | rewrite Hnd, Hsd; lia |].
      exists m'; split; [exact Hrun|].
      split; [rewrite Hn; exact Hnd|].
      rewrite Hs, Hnd, Hsd; lia.
    + destruct (IH (moveUp m)) as [_ (m' & Hrun & Hn & Hs)];
        [rewrite Hnu; exact Hlen | rewrite Hnu, Hsu; lia |].
      exists m'; split; [exact Hrun|].
      split; [rewrite Hn; exact Hnu|].
      rewrite Hs, Hsu; lia.
Qed.

Lemma repeated_navigation_witness :
  (exists m',
     run threeModel (repeat (KeyMsg "down") 7) = Some m' /\
     selectedIndex m' = 2) /\
  (exists m',
     run threeModel (repeat (KeyMsg "up") 7) = Some m' /\
     selectedIndex m' = 0).
Proof.
  destruct (repeated_navigation 7 threeModel)
    as [(md & Hd & _ & Hsd) (mu & Hu & _ & Hsu)].
  - vm_compute; discriminate.
  - vm_compute; split; discriminate.
  - split; [exists md | exists mu]; split; assumption.
Defined.

(** ** The trailing segment of a URL *)

Lemma Split_last_is_final (s : string) :
  final_segment s (last (Strings.Split s slash) "").
Proof.
  induction s as [|c r IH]; [split; [reflexivity | left; reflexivity]|].
  simpl Strings.Split.
  destruct (Ascii.eqb_spec c slash) as [->|Hc].
  - rewrite last_cons_nonempty by apply Split_nonempty.
    destruct IH as [Hseg [Hr|[p Hr]]]; (split; [exact Hseg|]; right).
    + exists ""; simpl; rewrite <- Hr; reflexivity.
    + exists (String slash p); simpl; rewrite <- Hr; reflexivity.
  - destruct (Strings.Split r slash) as [|h t] eqn:E;
      [exfalso; exact (Split_nonempty _ _ E)|].
    destruct t as [|h' t'].
    + simpl in IH |- *; destruct IH as [Hseg [Hr|[p Hr]]].
      * split; [|left; rewrite Hr; reflexivity].
        simpl; rewrite Hseg; apply Ascii.eqb_neq in Hc; rewrite Hc; reflexivity.
      * exfalso; pose proof (Split_sep_two_parts p h slash) as H2.
        rewrite <- Hr, E in H2; simpl in H2; lia.
    + change (last (String c h :: h' :: t') "") with (last (h :: h' :: t') "").
      destruct IH as [Hseg [Hr|[p Hr]]]; (split; [exact Hseg|]).
      * exfalso; rewrite Hr in E at 1.
        rewrite (Split_no_sep _ _ Hseg) in E; discriminate.
      * right; exists (String c p); simpl; f_equal; exact Hr.
Qed.

(** X1: [extractIssueNumber] never fails and returns the trailing path
    segment of the URL: a string without [/] that is the whole URL or what
    follows its last [/].  That segment is unique. *)
Theorem extractIssueNumber_segment (url : string) :
  strlen url < GoInt.max_int ->
  exists seg,
    extractIssueNumber url = Some seg /\
    final_segment url seg /\
    forall seg', final_segment url seg' -> seg' = seg.
Proof.
  intros Hlen; exists (last (Strings.Split url slash) "").
  split; [apply extractIssueNumber_last, Hlen|].
  split; [apply Split_last_is_final|].
  intros seg' H'.
  pose proof (extractIssueNumber_final_segment url seg' Hlen H') as E.
  rewrite (extractIssueNumber_last url Hlen) in E; congruence.
Qed.

Lemma extractIssueNumber_segment_witness :
  exists seg,
    extractIssueNumber "https://api.github.com/repos/octo/repo/pulls/42"
      = Some seg /\
    final_segment "https://api.github.com/repos/octo/repo/pulls/42" seg.
Proof.
  destruct (extractIssueNumber_segment
              "https://api.github.com/repos/octo/repo/pulls/42")
    as (seg & H & Hf & _).
  - vm_compute; reflexivity.
  - exists seg; split; assumption.
Defined.

(** ** Resizing and the title column *)

(** X12: after a resize to a width [w], the title column holds
    [max 20 (w - 45)] bytes: a title that fits is shown whole, a longer one
    is cut to exactly that many bytes, the last three being the ellipsis. *)
Theorem resize_title_width (m : Model) (w h : Z) (title : string) :
  GoInt.min_int + 45 <= w <= GoInt.max_int ->
  exists m' t,
    Update m (WindowSizeMsg w h) = Some (m', nilCmd) /\
    maxTitleLen m' = Z.max 20 (w - 45) /\
    truncateTitle m' title = Some t /\
    strlen t = Z.min (strlen title) (Z.max 20 (w - 45)) /\
    (strlen title <= Z.max 20 (w - 45) -> t = title) /\
    (Z.max 20 (w - 45) < strlen title ->
       exists t0, t = t0 ++ "..." /\ prefix t0 title = true).
Proof.
  intros Hw.
  set (m' := with_terminalSize w h m).
  assert (Hmax : maxTitleLen m' = Z.max 20 (w - 45)).
  { unfold maxTitleLen; simpl.
    rewrite GoIntFacts.sub_small by lia.
    destruct (Z.ltb_spec (w - 45) 20); lia. }
  destruct (truncateTitle_total m' title) as (t & Ht & Hle & Hshort & Hlong).
  exists m', t; split; [reflexivity|].
  split; [exact Hmax|]. split; [exact Ht|].
  rewrite Hmax in *.
  destruct (Z.le_gt_cases (strlen title) (Z.max 20 (w - 45))) as [Hfit|Hcut].
  - rewrite (Hshort Hfit).
    split; [lia|]. split; [reflexivity | lia].
  - destruct (str_slice_to_in_range title (Z.max 20 (w - 45) - 3))
      as [_ Hl]; [lia|].
    rewrite (Hlong Hcut), strlen_append, Hl; change (strlen "...") with 3.
    split; [lia|]. split; [lia|].
    intros _; eexists; split; [reflexivity|].
    apply String.prefix_correct.
    rewrite <- Hl at 1; unfold strlen; rewrite Nat2Z.id.
    clear; generalize (Z.to_nat (Z.max 20 (w - 45) - 3)); intros k.
    revert title; induction k as [|k IH]; intros [|c s]; simpl;
      try reflexivity.
    rewrite IH; reflexivity.
Qed.

Lemma resize_title_width_witness :
  exists m' t,
    Update narrowModel (WindowSizeMsg 70 24) = Some (m', nilCmd) /\
    maxTitleLen m' = 25 /\
    truncateTitle m' (Title (Subject_ longTitle)) = Some t /\
    strlen t = 25.
Proof.
  destruct (resize_title_width narrowModel 70 24 (Title (Subject_ longTitle)))
    as (m' & t & HU & Hm & Ht & Hl & _).
  - vm_compute; split; discriminate.
  - exists m', t; repeat split; assumption.
Defined.

(** ** A session from start-up *)

Lemma run_app (m : Model) (a b : list Msg) :
  run m (a ++ b)%list =
    match run m a with
    | Some m1 => run m1 b
    | None => None
    end.
Proof.
  revert m; induction a as [|x a IH]; intros m; simpl; [reflexivity|].
  destruct (Update m x) as [[m1 c]|]; [apply IH | reflexivity].
Qed.

Lemma run_cons (m : Model) (msg : Msg) (rest : list Msg) :
  run m (msg :: rest) =
    match Update m msg with
    | Some (m', _) => run m' rest
    | None => None
    end.
Proof. reflexivity. Qed.

(** X6: a session with one completed fetch is safe.  Started from the
    initial state, any messages other than fetch results, then a completed
    fetch, then again any messages other than fetch results, are all
    processed without a panic and end in a state whose selection is valid. *)
Theorem first_fetch_session (pre post : list Msg) (ns : list Notification) :
  len ns <= GoInt.max_int ->
  forallb (fun msg => negb (is_loaded msg)) pre = true ->
  forallb (fun msg => negb (is_loaded msg)) post = true ->
  exists m',
    run initialModel (pre ++ notificationsLoadedMsg ns :: post)%list
      = Some m' /\
    cursor_ok m' /\
    len (notifications m') <= len ns.
Proof.
  intros Hns Hpre Hpost.
  destruct (run_non_fetch_cursor pre initialModel) as (m1 & H1 & Hc1 & Hn1);
    [vm_compute; discriminate | left; split; reflexivity | exact Hpre |].
  change (len (notifications initialModel)) with 0 in Hn1.
  pose proof (len_nonneg (notifications m1)) as Hn1'.
  assert (Hs1 : selectedIndex m1 = 0) by (destruct Hc1 as [[_ H]|H]; lia).
  destruct (Update m1 (notificationsLoadedMsg ns)) as [[m2 c]|] eqn:HU;
    [|discriminate].
  assert (H2 : notifications m2 = ns /\ selectedIndex m2 = 0).
  { simpl in HU; injection HU as <- _.
    destruct (len ns =? 0); simpl; split; assumption || reflexivity. }
  destruct H2 as [Hn2 Hs2].
  destruct (run_non_fetch_cursor post m2) as (m' & H' & Hc' & Hn');
    [rewrite Hn2; exact Hns | | exact Hpost |].
  - destruct ns as [|n ns']; [left; split; assumption|].
    right; rewrite Hs2, Hn2, len_cons; pose proof (len_nonneg ns'); lia.
  - exists m'; rewrite run_app, H1, run_cons, HU.
    split; [exact H'|]. split; [exact Hc' | rewrite <- Hn2; exact Hn'].
Qed.

Lemma first_fetch_session_witness :
  exists m',
    run initialModel
      ([KeyMsg "down"; KeyMsg "enter"; WindowSizeMsg 100 30]
       ++ notificationsLoadedMsg fiveItems
       :: [KeyMsg "down"; KeyMsg "r"; notificationMarkedMsg "b";
           KeyMsg "enter"; errorMsg "failed to open in browser: exit status 1";
           KeyMsg "f"])%list = Some m' /\
    cursor_ok m' /\
    len (notifications m') <= len fiveItems.
Proof.
  apply first_fetch_session.
  - vm_compute; discriminate.
  - reflexivity.
  - reflexivity.
Defined.

(** ** The rows that are rendered *)




Lemma no_room_no_rows_witness :
  renderedIndices tinyTerminal = [] /\ renderedIndices lowTerminal = [].
Proof.
  split; apply no_room_no_rows; vm_compute;
    try split; discriminate.
Defined.
